(** * The VAST fetcher (src/fetcher.js), embedded and verified

    The [Fetcher] class keeps an ordered array of URL template filters and
    fetches one VAST document per call of [fetchVAST]: it runs the url
    through the filters, emits "VAST-resolving", awaits the url handler,
    emits "VAST-resolved", feeds the bitrate estimator and settles the
    promise it returned.

    The embedding is shallow.  JavaScript values are an inductive type
    whose objects are finite maps from property names to values; the
    effects of the promise executor (the notifications, the request, the
    estimator update, the settlement, the console) are threaded through
    a small state-and-exception monad that appends to a chronological
    trace. *)

From stdpp Require Import gmap strings list fin_maps pretty.
From Stdlib Require Import ZArith Lia.

Set Warnings "-register-all".
Set Default Proof Using "Type".
Open Scope Z_scope.

(** ** JavaScript values *)

Module JS.

(** Numbers are the integers (all the numbers that the fetcher computes:
  a wrapper depth, a status code, a byte length, a difference of two
  [Date.now()] readings) plus [NaN], which matters for truthiness.
  A function value is a reference into the table of function bodies of
  the environment (see [Env] below). *)
Inductive value : Type :=
| VUndefined
| VNull
| VBool (b : bool)
| VNum (n : Z)
| VNaN
| VStr (s : string)
| VObj (o : gmap string value)
| VFun (f : nat).

Abbreviation obj := (gmap string value).

(** [typeof v]. *)
Definition typeof (v : value) : string :=
match v with
| VUndefined => "undefined"
| VNull => "object"
| VBool _ => "boolean"
| VNum _ | VNaN => "number"
| VStr _ => "string"
| VObj _ => "object"
| VFun _ => "function"
end.

(** ToBoolean: the falsy values are undefined, null, false, 0, NaN and
  the empty string. *)
Definition truthy (v : value) : bool :=
match v with
| VUndefined | VNull | VNaN => false
| VBool b => b
| VNum n => negb (n =? 0)
| VStr s => negb (String.eqb s "")
| VObj _ | VFun _ => true
end.

(** [a || b], both operands already evaluated (the operands that the
  fetcher passes have no effects). *)
Definition or_else (a b : value) : value := if truthy a then a else b.

Definition nullish (v : value) : bool :=
match v with VUndefined | VNull => true | _ => false end.

(** A default of a destructured parameter: taken when the supplied value
  is undefined (and only then). *)
Definition default_to (d v : value) : value :=
match v with VUndefined => d | _ => v end.

(** How a call, or anything else that is evaluated, completes.  [Diverge]
  stands for never completing: a call that does not return, an awaited
  promise that is never settled. *)
Inductive completion (A : Type) : Type :=
| Normal (a : A)
| Throw (e : value)
| Diverge.
Arguments Normal {A} a.
Arguments Throw {A} e.
Arguments Diverge {A}.

Definition TypeError : value := VObj {[ "name" := VStr "TypeError" ]}.

(** [v.k] for the property names read in fetcher.js: none of them is
  defined by a built-in prototype, so on a primitive or a function the
  read gives undefined, and on undefined and null it throws. *)
Definition get (v : value) (k : string) : completion value :=
match v with
| VUndefined | VNull => Throw TypeError
| VObj o => Normal (default VUndefined (o !! k))
| _ => Normal VUndefined
end.

(** [v?.k] *)
Definition get_opt (v : value) (k : string) : value :=
match v with
| VObj o => default VUndefined (o !! k)
| _ => VUndefined
end.

(** The own enumerable properties that [...v] copies: those of an
  object, the indexed characters of a string, none for anything else
  (spreading undefined or null is allowed and copies nothing). *)
Fixpoint string_props (i : nat) (s : string) : obj :=
match s with
| EmptyString => ∅
| String c s' => <[pretty i := VStr (String c EmptyString)]> (string_props (S i) s')
end.

Definition own_props (v : value) : obj :=
match v with
| VObj o => o
| VStr s => string_props 0 s
| _ => ∅
end.

(** An object literal [{k1: v1, ..., kn: vn}]: the properties are defined
  in source order, a later one replacing an earlier one of its name. *)
Definition literal (fields : list (string * value)) : obj :=
foldl (λ o kv, <[kv.1 := kv.2]> o) ∅ fields.

(** [{...o, ...v}]: the properties of [v] are defined after those already
  in [o]. *)
Definition spread (o : obj) (v : value) : obj := own_props v ∪ o.

End JS.
Import JS.

(** ** Effects

    A computation over a state [St] either completes normally with a
    value, throws, or never completes; in each case it leaves a state. *)

Definition M (St A : Type) : Type := St → completion A * St.

#[global] Instance M_ret {St} : MRet (M St) := λ A a s, (Normal a, s).

#[global] Instance M_bind {St} : MBind (M St) := λ A B k c s,
  match c s with
  | (Normal a, s') => k a s'
  | (Throw e, s') => (Throw e, s')
  | (Diverge, s') => (Diverge, s')
  end.

(** An effect-free evaluation that may throw. *)
Definition lift {St A} (c : completion A) : M St A := λ s, (c, s).

(** [try { body } catch (error) { handler }] *)
Definition try_catch {St A} (body : M St A) (handler : value → M St A) : M St A :=
  λ s, match body s with
       | (Throw e, s') => handler e s'
       | r => r
       end.

(** What one run of the promise executor of [fetchVAST] does to the
    outside, in the order it does it. *)
Inductive event : Type :=
| Emitted (name : string) (payload : value)   (* emitter(name, payload) was called *)
| Requested (url options : value)             (* this.urlHandler.get(url, options) was called *)
| Resolved (v : value)                        (* resolve(v) was called *)
| Rejected (e : value)                        (* reject(e) was called *)
| Logged (e : value).                         (* console.error(e) was called *)

(** The state a fetch runs in: the bitrate estimator's module state, the
    clock that [Date.now()] reads, the trace so far. *)
Record store (S : Type) : Type := Store {
  estimator : S;
  now : Z;
  trace : list event;
}.
Arguments Store {S} _ _ _.
Arguments estimator {S} _.
Arguments now {S} _.
Arguments trace {S} _.

Definition tell {S} (ev : event) : M (store S) unit :=
  λ s, (Normal tt, Store (estimator s) (now s) (trace s ++ [ev])).

(** The bodies of the function values: what calling function [f] does as
    a URL template filter (filters are pure), as the notification
    callback, and what awaiting its result gives when it is called as the
    url handler's [get] (the value of the fulfilled promise with the
    clock at resumption; [Throw] for a rejection or a throw of [get];
    [Diverge] for a promise that is never settled). *)
Record Env : Type := {
  filter_body : nat → value → completion value;
  emitter_body : nat → string → value → completion unit;
  get_body : nat → value → value → completion (value * Z);
}.

(** ** The Fetcher *)

Record Fetcher : Type := {
  URLTemplateFilters : list value;
  urlHandler : value;
  fetchingOptions : value;
}.

(** The argument of [fetchVAST]; a property that the caller leaves out
    is undefined. *)
Record FetchRequest : Type := {
  url : value;
  maxWrapperDepth : value;
  emitter : value;
  wrapperDepth : value;
  previousUrl : value;
  wrapperAd : value;
}.

(** [Math.round] at a difference of two [Date.now()] readings, which are
    integers. *)
Definition Math_round (n : Z) : Z := n.

Section Fetcher.

(** The three imports of fetcher.js, which are not part of src/:
    the estimator update of ./parser/bitrate (it acts on that module's
    state [S]), the default url handler, the default timeout. *)
Context {S : Type}.
Variable updateEstimatedBitrate : value → value → M S unit.
Variable xhr_urlHandler : value.
Variable DEFAULT_TIMEOUT : value.

Variable env : Env.

Definition constructor : Fetcher :=
  {| URLTemplateFilters := []; urlHandler := VUndefined; fetchingOptions := VUndefined |}.

(** [setOptions(options = {})]: every read of [options] happens before
    the first assignment, so a throw leaves [this] as it was. *)
Definition setOptions (options : value) : M Fetcher unit := λ this,
  let options := default_to (VObj ∅) options in
  match get options "urlHandler", get options "urlhandler",
        get options "timeout", get options "withCredentials" with
  | Normal h1, Normal h2, Normal timeout, Normal withCredentials =>
      (Normal tt,
       {| URLTemplateFilters := URLTemplateFilters this;
          urlHandler := or_else (or_else h1 h2) xhr_urlHandler;
          fetchingOptions := VObj (literal [
            ("timeout", or_else timeout DEFAULT_TIMEOUT);
            ("withCredentials", or_else withCredentials (VBool false)) ]) |})
  | _, _, _, _ => (Throw TypeError, this)
  end.

Definition addURLTemplateFilter (filter : value) (this : Fetcher) : Fetcher :=
  if decide (typeof filter = "function")
  then {| URLTemplateFilters := URLTemplateFilters this ++ [filter];
          urlHandler := urlHandler this;
          fetchingOptions := fetchingOptions this |}
  else this.

(** [Array.prototype.pop] leaves an empty array empty. *)
Definition removeURLTemplateFilter (this : Fetcher) : Fetcher :=
  {| URLTemplateFilters := removelast (URLTemplateFilters this);
     urlHandler := urlHandler this;
     fetchingOptions := fetchingOptions this |}.

Definition countURLTemplateFilters (this : Fetcher) : nat :=
  length (URLTemplateFilters this).

Definition clearURLTemplateFilters (this : Fetcher) : Fetcher :=
  {| URLTemplateFilters := [];
     urlHandler := urlHandler this;
     fetchingOptions := fetchingOptions this |}.

(** [filter(url)]; calling what is not a function throws. *)
Definition call_filter (filter url : value) : completion value :=
  match filter with
  | VFun f => filter_body env f url
  | _ => Throw TypeError
  end.

(** [this.URLTemplateFilters.forEach((filter) => { url = filter(url); })] *)
Fixpoint forEach_filter (filters : list value) (url : value) : completion value :=
  match filters with
  | [] => Normal url
  | filter :: rest =>
      match call_filter filter url with
      | Normal url' => forEach_filter rest url'
      | c => c
      end
  end.

(** [emitter(name, payload)].  The callback is taken not to call back
    into the fetcher while the fetch runs: line 102 reads
    [this.urlHandler] and [this.fetchingOptions] after it has
    returned, and finds them here as they were. *)
Definition call_emitter (emitter : value) (name : string) (payload : value)
  : M (store S) unit :=
  match emitter with
  | VFun f => tell (Emitted name payload);; lift (emitter_body env f name payload)
  | _ => lift (Throw TypeError)
  end.

(** [await c]: the executor resumes with the value of the fulfilled
    promise, the clock having moved; a rejection is thrown at the
    [await]; on a promise that is never settled it stays suspended. *)
Definition await (c : completion (value * Z)) : M (store S) value :=
  λ s, match c with
       | Normal (data, t) => (Normal data, Store (estimator s) t (trace s))
       | Throw e => (Throw e, s)
       | Diverge => (Diverge, s)
       end.

(** [await this.urlHandler.get(url, this.fetchingOptions)] *)
Definition await_get (handler url options : value) : M (store S) value :=
  method ← lift (get handler "get");
  match method with
  | VFun f => tell (Requested url options);; await (get_body env f url options)
  | _ => lift (Throw TypeError)
  end.

Definition Date_now : M (store S) Z := λ s, (Normal (now s), s).

(** The call of the imported estimator update, on the estimator's part
    of the store. *)
Definition call_updateEstimatedBitrate (byteLength duration : value)
  : M (store S) unit :=
  λ s, let '(c, st) := updateEstimatedBitrate byteLength duration (estimator s) in
       (c, Store st (now s) (trace s)).

(** The executor that [fetchVAST] hands to [new Promise]: an async
    function, run to its end or to where it stays suspended.  A throw
    that escapes it (one of a filter, outside the [try]) only rejects
    the promise of the async function, which nobody holds. *)
Definition fetchVAST (request : FetchRequest) (this : Fetcher) : M (store S) unit :=
  let '(Build_FetchRequest url maxWrapperDepth emitter
                           wrapperDepth previousUrl wrapperAd) := request in
  let wrapperDepth := default_to (VNum 0) wrapperDepth in
  let previousUrl := default_to VNull previousUrl in
  let wrapperAd := default_to VNull wrapperAd in
  timeBeforeGet ← Date_now;
  url ← lift (forEach_filter (URLTemplateFilters this) url);
  try_catch
    (timeout ← lift (get (fetchingOptions this) "timeout");
     call_emitter emitter "VAST-resolving" (VObj (literal [
       ("url", url);
       ("previousUrl", previousUrl);
       ("wrapperDepth", wrapperDepth);
       ("maxWrapperDepth", maxWrapperDepth);
       ("timeout", timeout);
       ("wrapperAd", wrapperAd) ]));;
     data ← await_get (urlHandler this) url (fetchingOptions this);
     timeAfterGet ← Date_now;
     let deltaTime := Math_round (timeAfterGet - timeBeforeGet) in
     error ← lift (get data "error");
     statusCode ← lift (get data "statusCode");
     details ← lift (get data "details");
     let info := spread (literal [
       ("url", url);
       ("previousUrl", previousUrl);
       ("wrapperDepth", wrapperDepth);
       ("error", or_else error VNull);
       ("duration", VNum deltaTime);
       ("statusCode", or_else statusCode VNull) ]) details in
     call_emitter emitter "VAST-resolved" (VObj info);;
     call_updateEstimatedBitrate
       (get_opt (get_opt data "details") "byteLength") (VNum deltaTime);;
     error ← lift (get data "error");
     if truthy error
     then tell (Rejected error)
     else xml ← lift (get data "xml"); tell (Resolved xml))
    (λ error, tell (Logged error)).

End Fetcher.

(** ** The promise that [fetchVAST] returns *)

Inductive promise_state : Type :=
| Pending
| Fulfilled (v : value)
| RejectedWith (e : value).

(** The calls of [resolve] and [reject] in a trace, in order. *)
Definition is_settlement (ev : event) : bool :=
  match ev with Resolved _ | Rejected _ => true | _ => false end.

Definition settlements (tr : list event) : list event :=
  List.filter is_settlement tr.

(** The first call of [resolve] or [reject] settles the promise, a later
    one has no effect. *)
Definition promise_of (tr : list event) : promise_state :=
  match settlements tr with
  | Resolved v :: _ => Fulfilled v
  | Rejected e :: _ => RejectedWith e
  | _ => Pending
  end.

(** ** The bitrate estimator

    fetcher.js imports [updateEstimatedBitrate] from ./parser/bitrate
    and calls it with [data?.details?.byteLength] as it is, undefined
    included; the import is a parameter of [fetchVAST] throughout.  An
    estimator may guard itself against a call without a byte length:
    [ignoring_undefined update] is [update] behind such a guard.  The
    fetcher has no guard of this kind. *)

Module Bitrate.

Definition ignoring_undefined {S : Type} (update : value → value → M S unit)
    (byteLength duration : value) : M S unit :=
  match byteLength with
  | VUndefined => mret tt
  | _ => update byteLength duration
  end.

End Bitrate.

(** ** Sequences of operations on the filter pipeline *)

Inductive op : Type :=
| Add (filter : value)
| RemoveLast
| Clear.

Definition apply_op (this : Fetcher) (o : op) : Fetcher :=
  match o with
  | Add filter => addURLTemplateFilter filter this
  | RemoveLast => removeURLTemplateFilter this
  | Clear => clearURLTemplateFilters this
  end.

(** The operations applied, in order, to [new Fetcher()]. *)
Definition run_ops (ops : list op) : Fetcher := foldl apply_op constructor ops.

(** The count as the spec words it, a tally over the integers: one up
    for an add that succeeds (its argument is callable), one down for a
    removal but never below 0, back to 0 at a clear. *)
Definition tally_step (n : Z) (o : op) : Z :=
  match o with
  | Add filter => if decide (typeof filter = "function") then n + 1 else n
  | RemoveLast => Z.max 0 (n - 1)
  | Clear => 0
  end.

Definition tally (ops : list op) : Z := foldl tally_step 0 ops.

(** ** A concrete world

    Function values 1 to 3 are URL template filters, 10 to 12
    notification callbacks, 20 to 25 the [get] of url handlers; the
    estimator state is the list of the samples it was given. *)

Module Scenario.

Definition append_to (suffix : string) (v : value) : value :=
  match v with VStr s => VStr (s +:+ suffix) | _ => v end.

Definition NetworkTimeoutError : value :=
  VObj {[ "name" := VStr "Error"; "message" := VStr "timeout" ]}.

Definition filterFault : value :=
  VObj {[ "name" := VStr "Error"; "message" := VStr "bad template" ]}.

Definition listenerFault : value :=
  VObj {[ "name" := VStr "Error"; "message" := VStr "listener failed" ]}.

Definition wrapper : value := VObj {[ "id" := VStr "wrapper-1" ]}.

(** Transport results: a document with its size; a failure; a
    document whose details name a url and a status code of their own;
    a document without details. *)
Definition sized_result : value :=
  VObj {[ "xml" := VStr "<VAST/>"; "statusCode" := VNum 200;
          "details" := VObj {[ "byteLength" := VNum 1000 ]} ]}.

Definition failed_result : value := VObj {[ "error" := NetworkTimeoutError ]}.

Definition redirected_result : value :=
  VObj {[ "xml" := VStr "<VAST/>"; "statusCode" := VNum 200;
          "details" := VObj {[ "url" := VStr "http://cdn/final.xml";
                               "statusCode" := VNum 302 ]} ]}.

Definition bare_result : value :=
  VObj {[ "xml" := VStr "<VAST/>"; "statusCode" := VNum 200 ]}.

Definition filters (f : nat) (u : value) : completion value :=
  match f with
  | 1%nat => Normal (append_to "?cb=1" u)
  | 2%nat => Normal (append_to "&gdpr=0" u)
  | _ => Throw filterFault
  end.

Definition listeners (f : nat) (name : string) (payload : value) : completion unit :=
  match f with
  | 10%nat => Normal tt
  | 11%nat => if String.eqb name "VAST-resolved" then Throw listenerFault else Normal tt
  | _ => Throw listenerFault
  end.

Definition env : Env := {|
  filter_body := filters;
  emitter_body := listeners;
  get_body f u options :=
    match f with
    | 20%nat => Normal (sized_result, 1050)
    | 21%nat => Normal (failed_result, 1050)
    | 22%nat => Diverge
    | 23%nat => Normal (redirected_result, 1050)
    | 24%nat => Normal (bare_result, 1050)
    | _ => Throw NetworkTimeoutError
    end |}.


Definition handler (g : nat) : value := VObj {[ "get" := VFun g ]}.

Definition samples : Type := list (value * value).

Definition record_sample (byteLength duration : value) : M samples unit :=
  λ st, (Normal tt, st ++ [(byteLength, duration)]).

Definition failing_update (byteLength duration : value) : M samples unit :=
  λ st, (Throw listenerFault, st).

Definition DEFAULT_TIMEOUT : value := VNum 120000.

Definition request (emit : nat) : FetchRequest := {|
  url := VStr "http://a/vast.xml";
  maxWrapperDepth := VNum 1;
  emitter := VFun emit;
  wrapperDepth := VNum 0;
  previousUrl := VUndefined;
  wrapperAd := wrapper |}.

(** [new Fetcher()] after [setOptions({urlHandler: handler})] and the
    addition of the given filters. *)
Definition fetcher (g : nat) (filters : list value) : Fetcher :=
  foldl (λ this f, addURLTemplateFilter f this)
    (setOptions (handler 20) DEFAULT_TIMEOUT
       (VObj {[ "urlHandler" := handler g ]}) constructor).2
    filters.

Definition start : store samples := Store [] 1000 [].

(** The recording estimator behind the guard against a missing byte
    length. *)
Definition skipping : value → value → M samples unit :=
  Bitrate.ignoring_undefined record_sample.

Definition fetch (update : value → value → M samples unit)
    (emit g : nat) (filters : list value) : completion unit * store samples :=
  fetchVAST update env (request emit) (fetcher g filters) start.

End Scenario.

(** ** What a fetch emits and when

    The payloads of the two notifications, named, and the traces that a
    run of the executor can leave. *)

Section Runs.

Context {S : Type}.
Variable updateEstimatedBitrate : value → value → M S unit.
Variable env : Env.
Variable request : FetchRequest.
Variable this : Fetcher.
(** The estimator state and the clock when [fetchVAST] is called. *)
Variable st : S.
Variable t0 : Z.

(** The run of one [fetchVAST], from an empty trace. *)
Definition run : completion unit * store S :=
  fetchVAST updateEstimatedBitrate env request this (Store st t0 []).

(** The payload of "VAST-resolving" for the filtered url [u]. *)
Definition resolving_payload (u timeout : value) : value :=
  VObj (literal [
    ("url", u);
    ("previousUrl", default_to VNull (previousUrl request));
    ("wrapperDepth", default_to (VNum 0) (wrapperDepth request));
    ("maxWrapperDepth", maxWrapperDepth request);
    ("timeout", timeout);
    ("wrapperAd", default_to VNull (wrapperAd request)) ]).

(** The fields that [info] names, before [...data.details]. *)
Definition named_fields (u data : value) (duration : Z) : obj :=
  literal [
    ("url", u);
    ("previousUrl", default_to VNull (previousUrl request));
    ("wrapperDepth", default_to (VNum 0) (wrapperDepth request));
    ("error", or_else (get_opt data "error") VNull);
    ("duration", VNum duration);
    ("statusCode", or_else (get_opt data "statusCode") VNull) ].

(** The payload of "VAST-resolved". *)
Definition resolved_payload (u data : value) (duration : Z) : value :=
  VObj (spread (named_fields u data duration) (get_opt data "details")).

(** What [data?.details?.byteLength] evaluates to. *)
Definition byteLength_of (data : value) : value :=
  get_opt (get_opt data "details") "byteLength".

(** The call that settles the promise for the transport result [data]. *)
Definition settlement_of (data : value) : event :=
  if truthy (get_opt data "error")
  then Rejected (get_opt data "error")
  else Resolved (get_opt data "xml").

(** The run gets as far as emitting "VAST-resolved": the filters
    return [u], the options are set, the callback [e] returns from the
    first notification, the transport [g] completes at time [t] with a
    result object [data]. *)
Record reaches_resolved (u timeout : value) (e g : nat) (data : value) (t : Z)
  : Prop := {
  filters_return :
    forEach_filter env (URLTemplateFilters this) (url request) = Normal u;
  options_set : get (fetchingOptions this) "timeout" = Normal timeout;
  emitter_callable : emitter request = VFun e;
  resolving_returns :
    emitter_body env e "VAST-resolving" (resolving_payload u timeout) = Normal tt;
  handler_callable : get (urlHandler this) "get" = Normal (VFun g);
  transport_completes : get_body env g u (fetchingOptions this) = Normal (data, t);
  result_is_object : ∃ d, data = VObj d;
}.

(** No collaborator faults: moreover the callback returns from the
    second notification and the estimator update returns. *)
Record fault_free (u timeout : value) (e g : nat) (data : value) (t : Z)
  : Prop := {
  to_resolved : reaches_resolved u timeout e g data t;
  resolved_returns :
    emitter_body env e "VAST-resolved" (resolved_payload u data (t - t0)) = Normal tt;
  update_returns :
    (updateEstimatedBitrate (byteLength_of data) (VNum (t - t0)) st).1 = Normal tt;
}.

(** The traces of a run, stage by stage; at each stage the run may stop
    for good ([[]]: a collaborator never returned, or the throw of a
    filter escaped) or end in the [catch] ([[Logged e]]). *)
Inductive after_resolved (data : value) : list event → Prop :=
| ad_stop : after_resolved data []
| ad_fault e : after_resolved data [Logged e]
| ad_settle : after_resolved data [settlement_of data].

Inductive after_request (u : value) : list event → Prop :=
| aq_stop : after_request u []
| aq_fault e : after_request u [Logged e]
| aq_resolved g data t tl :
    get (urlHandler this) "get" = Normal (VFun g) →
    get_body env g u (fetchingOptions this) = Normal (data, t) →
    after_resolved data tl →
    after_request u (Emitted "VAST-resolved" (resolved_payload u data (t - t0)) :: tl).

Inductive after_resolving (u : value) : list event → Prop :=
| ar_stop : after_resolving u []
| ar_fault e : after_resolving u [Logged e]
| ar_request tl :
    after_request u tl →
    after_resolving u (Requested u (fetchingOptions this) :: tl).

Inductive run_trace : list event → Prop :=
| rt_silent : run_trace []
| rt_fault e : run_trace [Logged e]
| rt_resolving u timeout tl :
    forEach_filter env (URLTemplateFilters this) (url request) = Normal u →
    get (fetchingOptions this) "timeout" = Normal timeout →
    after_resolving u tl →
    run_trace (Emitted "VAST-resolving" (resolving_payload u timeout) :: tl).

End Runs.

(** ** Further stages, and counting events *)

Section Stages.

Variable env : Env.
Variable request : FetchRequest.
Variable this : Fetcher.

(** The run gets as far as calling the transport: the filters return
    [u], the options are set, the callback [e] returns from
    "VAST-resolving", the url handler has a function [g] as its [get]. *)
Record reaches_request (u timeout : value) (e g : nat) : Prop := {
  rr_filters :
    forEach_filter env (URLTemplateFilters this) (url request) = Normal u;
  rr_options : get (fetchingOptions this) "timeout" = Normal timeout;
  rr_emitter : emitter request = VFun e;
  rr_resolving :
    emitter_body env e "VAST-resolving" (resolving_payload request u timeout)
    = Normal tt;
  rr_handler : get (urlHandler this) "get" = Normal (VFun g);
}.

End Stages.

Definition is_request (ev : event) : bool :=
  match ev with Requested _ _ => true | _ => false end.

Definition is_emission (name : string) (ev : event) : bool :=
  match ev with Emitted n _ => String.eqb n name | _ => false end.

Definition is_log (ev : event) : bool :=
  match ev with Logged _ => true | _ => false end.

(** How many events of a kind a trace has. *)
Definition count_of (kind : event → bool) (tr : list event) : nat :=
  length (List.filter kind tr).

(** [removeURLTemplateFilter()] called [n] times. *)
Definition remove_times (n : nat) (this : Fetcher) : Fetcher :=
  Nat.iter n removeURLTemplateFilter this.

(** [addURLTemplateFilter] called with each of the functions [fs], in
    order. *)
Definition add_all (fs : list nat) (this : Fetcher) : Fetcher :=
  foldl (λ that f, addURLTemplateFilter (VFun f) that) this fs.

(** ** More concrete worlds *)

Module Faults.

(** A transport that fulfils with null, and one that fulfils with the
    bare document instead of a result object. *)
Definition env_null : Env := {|
  filter_body := Scenario.filters;
  emitter_body := Scenario.listeners;
  get_body f u options := Normal (VNull, 1050) |}.

Definition env_bare : Env := {|
  filter_body := Scenario.filters;
  emitter_body := Scenario.listeners;
  get_body f u options := Normal (VStr "<VAST/>", 1050) |}.

(** A failed result that still reports a size. *)
Definition sized_failure : value :=
  VObj {[ "error" := Scenario.NetworkTimeoutError; "statusCode" := VNum 0;
          "details" := VObj {[ "byteLength" := VNum 120 ]} ]}.

Definition env_failure : Env := {|
  filter_body := Scenario.filters;
  emitter_body := Scenario.listeners;
  get_body f u options := Normal (sized_failure, 1050) |}.

(** A request whose emitter is missing. *)
Definition request_without_emitter : FetchRequest := {|
  url := VStr "http://a/vast.xml";
  maxWrapperDepth := VNum 1;
  emitter := VUndefined;
  wrapperDepth := VUndefined;
  previousUrl := VUndefined;
  wrapperAd := VUndefined |}.

(** A fetcher configured with a url handler that has no [get]. *)
Definition fetcher_without_get : Fetcher :=
  (setOptions (Scenario.handler 20) Scenario.DEFAULT_TIMEOUT
     (VObj {[ "urlHandler" := VObj {[ "post" := VFun 20 ]} ]}) constructor).2.

End Faults.

(** * Properties *)

(** ** The filter pipeline *)

Lemma count_removelast (this : Fetcher) :
  countURLTemplateFilters (removeURLTemplateFilter this)
  = Nat.pred (countURLTemplateFilters this).
Proof.
  unfold countURLTemplateFilters, removeURLTemplateFilter; simpl.
  induction (URLTemplateFilters this) as [|f [|g fs] IH]; simpl in *; auto.
Qed.

Lemma count_add (filter : value) (this : Fetcher) :
  countURLTemplateFilters (addURLTemplateFilter filter this)
  = if decide (typeof filter = "function")
    then Datatypes.S (countURLTemplateFilters this)
    else countURLTemplateFilters this.
Proof.
  unfold countURLTemplateFilters, addURLTemplateFilter.
  case_decide; simpl; [|done].
  rewrite length_app; simpl; lia.
Qed.

Lemma count_step (this : Fetcher) (o : op) :
  Z.of_nat (countURLTemplateFilters (apply_op this o))
  = tally_step (Z.of_nat (countURLTemplateFilters this)) o.
Proof.
  destruct o as [filter| |]; simpl.
  - rewrite count_add. case_decide; lia.
  - rewrite count_removelast. lia.
  - reflexivity.
Qed.

Lemma run_ops_snoc (ops : list op) (o : op) :
  run_ops (ops ++ [o]) = apply_op (run_ops ops) o.
Proof. unfold run_ops. by rewrite foldl_snoc. Qed.

Lemma tally_snoc (ops : list op) (o : op) :
  tally (ops ++ [o]) = tally_step (tally ops) o.
Proof. unfold tally. by rewrite foldl_snoc. Qed.

Lemma count_tally (ops : list op) :
  Z.of_nat (countURLTemplateFilters (run_ops ops)) = tally ops.
Proof.
  induction ops as [|o ops IH] using rev_ind; [done|].
  by rewrite run_ops_snoc, tally_snoc, count_step, IH.
Qed.

Lemma removelast_empty (this : Fetcher) :
  countURLTemplateFilters this = 0%nat → removeURLTemplateFilter this = this.
Proof.
  destruct this as [fs h o]; unfold countURLTemplateFilters, removeURLTemplateFilter; simpl.
  by destruct fs.
Qed.

(** C8.  After any finite sequence of add, removeLast and clear on a new
    fetcher, countURLTemplateFilters() is the tally of the sequence: the
    successful adds minus the removals since the last clear, where the
    floor at 0 acts at each removal (a removal that finds the pipeline
    empty does nothing, and is not counted against a later add).  The
    count is never negative, removeLast on an empty pipeline changes
    nothing, and after clear the count is 0. *)
Theorem count_is_floored_tally (ops : list op) :
  Z.of_nat (countURLTemplateFilters (run_ops ops)) = tally ops
  ∧ 0 ≤ tally ops
  ∧ (countURLTemplateFilters (run_ops ops) = 0%nat →
     run_ops (ops ++ [RemoveLast]) = run_ops ops)
  ∧ countURLTemplateFilters (run_ops (ops ++ [Clear])) = 0%nat.
Proof.
  split; [apply count_tally|].
  split; [rewrite <- count_tally; lia|].
  split.
  - intros Hempty. rewrite run_ops_snoc. by apply removelast_empty.
  - by rewrite run_ops_snoc.
Qed.

(** C9.  Adding an argument that is not a function is a silent no-op:
    the fetcher, hence its filter sequence and its count, is unchanged
    (and [addURLTemplateFilter] cannot throw: it is a total function to
    fetchers). *)
Theorem add_non_callable_is_noop (filter : value) (this : Fetcher) :
  typeof filter ≠ "function" →
  addURLTemplateFilter filter this = this
  ∧ URLTemplateFilters (addURLTemplateFilter filter this) = URLTemplateFilters this
  ∧ countURLTemplateFilters (addURLTemplateFilter filter this)
    = countURLTemplateFilters this.
Proof.
  intros Hnf. unfold addURLTemplateFilter. by case_decide.
Qed.

(** ** Runs of [fetchVAST] *)

Arguments literal : simpl never.
Arguments spread : simpl never.

Ltac unfold_fetch :=
  unfold run, fetchVAST, try_catch, call_emitter, await_get, await,
    call_updateEstimatedBitrate, Date_now, lift, tell, mbind, M_bind, mret, M_ret.

Ltac run_cases := repeat (case_match; simplify_eq/=).

Lemma default_to_supplied (d v : value) : v ≠ VUndefined → default_to d v = v.
Proof. by destruct v. Qed.

Lemma get_Normal (v : value) (k : string) (x : value) :
  get v k = Normal x → x = get_opt v k ∧ nullish v = false.
Proof. destruct v; simpl; intros; by simplify_eq. Qed.

(** The leaves of the case analysis of a run: its trace ... *)
Ltac solve_trace :=
  repeat match goal with
    | H : get ?v _ = Normal _ |- _ =>
        is_var v; apply get_Normal in H; destruct H as [-> _]
    end;
  first [ apply rt_silent | apply rt_fault | eapply rt_resolving; [eassumption..|] ];
  first [ apply ar_stop | apply ar_fault | apply ar_request ];
  first [ apply aq_stop | apply aq_fault | eapply aq_resolved; [eassumption..|] ];
  first [ apply ad_stop | apply ad_fault
        | match goal with
          | H : truthy _ = _ |- after_resolved ?data _ =>
              let Hs := fresh in
              pose proof (ad_settle data) as Hs; unfold settlement_of in Hs;
              by rewrite H in Hs
          end ].

(** ... and its estimator state. *)
Ltac solve_frame :=
  simpl; unfold byteLength_of, Math_round in *;
  first [ by left
        | right; do 4 eexists; split; [eassumption|];
          match goal with H : _ = (_, _) |- _ => by rewrite H end ].

Section RunLemmas.

Context {S : Type}.
Variable upd : value → value → M S unit.
Variable env : Env.
Variable rq : FetchRequest.
Variable this : Fetcher.
Variable st : S.
Variable t0 : Z.

(** Up to the second notification the run is determined; what follows
    depends on how the callback and the estimator return. *)
Lemma run_reaches_resolved u timeout e g data t :
  reaches_resolved env rq this u timeout e g data t →
  run upd env rq this st t0 =
    let tr := [Emitted "VAST-resolving" (resolving_payload rq u timeout);
               Requested u (fetchingOptions this);
               Emitted "VAST-resolved" (resolved_payload rq u data (t - t0))] in
    match emitter_body env e "VAST-resolved" (resolved_payload rq u data (t - t0)) with
    | Normal _ =>
        match upd (byteLength_of data) (VNum (t - t0)) st with
        | (Normal _, st') => (Normal tt, Store st' t (tr ++ [settlement_of data]))
        | (Throw x, st') => (Normal tt, Store st' t (tr ++ [Logged x]))
        | (Diverge, st') => (Diverge, Store st' t tr)
        end
    | Throw x => (Normal tt, Store st t (tr ++ [Logged x]))
    | Diverge => (Diverge, Store st t tr)
    end.
Proof.
  intros [Hf Ho He Hr Hh Hg [d ->]].
  destruct rq as [u0 mw em wd pu wa]; simpl in *. subst em.
  unfold_fetch. simpl. rewrite Hf, Ho.
  unfold resolving_payload in Hr; simpl in Hr. rewrite Hr, Hh. simpl. rewrite Hg. simpl.
  unfold resolved_payload, named_fields, Math_round, byteLength_of, settlement_of. simpl.
  run_cases; reflexivity.
Qed.

Lemma run_fault_free u timeout e g data t :
  fault_free upd env rq this st t0 u timeout e g data t →
  run upd env rq this st t0 =
    (Normal tt,
     Store (upd (byteLength_of data) (VNum (t - t0)) st).2 t
       [Emitted "VAST-resolving" (resolving_payload rq u timeout);
        Requested u (fetchingOptions this);
        Emitted "VAST-resolved" (resolved_payload rq u data (t - t0));
        settlement_of data]).
Proof.
  intros [Hreach He Hu]. rewrite (run_reaches_resolved _ _ _ _ _ _ Hreach). simpl.
  rewrite He. destruct (upd _ _ st) as [[[]| |] st']; simpl in *; by simplify_eq.
Qed.

(** Whatever the collaborators do, the trace of a run has the staged
    form, and the estimator is as it was or as the update left it. *)
Lemma run_shape :
  run_trace env rq this t0 (trace (run upd env rq this st t0).2)
  ∧ (estimator (run upd env rq this st t0).2 = st
     ∨ ∃ g u data t,
         get_body env g u (fetchingOptions this) = Normal (data, t)
         ∧ estimator (run upd env rq this st t0).2
           = (upd (byteLength_of data) (VNum (t - t0)) st).2).
Proof.
  destruct rq as [u0 mw em wd pu wa].
  unfold_fetch. simpl.
  run_cases; (split; [solve_trace | solve_frame]).
Qed.

Lemma run_trace_shape :
  run_trace env rq this t0 (trace (run upd env rq this st t0).2).
Proof. apply run_shape. Qed.

End RunLemmas.

(** ** Traces of the staged form *)

Ltac invert_trace H :=
  let Har := fresh "Har" in
  let Haq := fresh "Haq" in
  let Had := fresh "Had" in
  inversion H as [ | ? | ? ? ? ? ? Har ];
    [ | | inversion Har as [ | ? | ? Haq ];
          [ | | inversion Haq as [ | ? | ? ? ? ? ? ? Had ];
                [ | | inversion Had ] ] ];
  simplify_eq/=.

Lemma settlement_is_settlement (data : value) :
  is_settlement (settlement_of data) = true.
Proof. unfold settlement_of. by case_match. Qed.

Lemma settlement_not_emitted (data : value) (name : string) (p : value) :
  settlement_of data ≠ Emitted name p.
Proof. unfold settlement_of. by case_match. Qed.

Lemma settlement_not_requested (data u o : value) :
  settlement_of data ≠ Requested u o.
Proof. unfold settlement_of. by case_match. Qed.

Lemma promise_of_settlement (data : value) :
  promise_of [settlement_of data]
  = if truthy (get_opt data "error")
    then RejectedWith (get_opt data "error")
    else Fulfilled (get_opt data "xml").
Proof. unfold settlement_of. by case_match. Qed.

(** At most one call settles, and it is the one that the result of the
    transport asks for. *)
Lemma run_trace_settlements env rq this t0 (tr : list event) :
  run_trace env rq this t0 tr →
  settlements tr = []
  ∨ ∃ u g data t,
      get (urlHandler this) "get" = Normal (VFun g)
      ∧ get_body env g u (fetchingOptions this) = Normal (data, t)
      ∧ settlements tr = [settlement_of data].
Proof.
  intros H. invert_trace H; auto.
  right. do 4 eexists. split; [eassumption|]. split; [eassumption|].
  unfold settlements. simpl. by rewrite settlement_is_settlement.
Qed.

Lemma run_settles_at_most_once {S} (upd : value → value → M S unit) env rq this st t0 :
  (length (settlements (trace (run upd env rq this st t0).2)) ≤ 1)%nat.
Proof.
  destruct (run_trace_settlements _ _ _ _ _ (run_trace_shape upd env rq this st t0))
    as [->|(u & g & data & t & _ & _ & ->)]; simpl; lia.
Qed.

(** ** The notification payloads *)

Lemma spread_lookup (o : obj) (v : value) (k : string) :
  spread o v !! k
  = match own_props v !! k with Some x => Some x | None => o !! k end.
Proof.
  unfold spread. rewrite lookup_union.
  by destruct (own_props v !! k), (o !! k).
Qed.

Lemma named_fields_lookup rq (u data : value) (duration : Z) :
  let named := named_fields rq u data duration in
  named !! "url" = Some u
  ∧ named !! "previousUrl" = Some (default_to VNull (previousUrl rq))
  ∧ named !! "wrapperDepth" = Some (default_to (VNum 0) (wrapperDepth rq))
  ∧ named !! "error" = Some (or_else (get_opt data "error") VNull)
  ∧ named !! "duration" = Some (VNum duration)
  ∧ named !! "statusCode" = Some (or_else (get_opt data "statusCode") VNull)
  ∧ named !! "wrapperAd" = None.
Proof. repeat split; reflexivity. Qed.

Lemma resolving_payload_lookup rq (u timeout : value) :
  ∃ o, resolving_payload rq u timeout = VObj o
    ∧ o !! "url" = Some u
    ∧ o !! "previousUrl" = Some (default_to VNull (previousUrl rq))
    ∧ o !! "wrapperDepth" = Some (default_to (VNum 0) (wrapperDepth rq))
    ∧ o !! "maxWrapperDepth" = Some (maxWrapperDepth rq)
    ∧ o !! "timeout" = Some timeout
    ∧ o !! "wrapperAd" = Some (default_to VNull (wrapperAd rq)).
Proof. eexists. split; [reflexivity|]. repeat split; reflexivity. Qed.

Section FetchProperties.

Context {S : Type}.
Variable upd : value → value → M S unit.
Variable env : Env.
Variable rq : FetchRequest.
Variable this : Fetcher.
Variable st : S.
Variable t0 : Z.

Lemma run_prefix u timeout e g data t :
  reaches_resolved env rq this u timeout e g data t →
  ∃ tl, trace (run upd env rq this st t0).2
        = [Emitted "VAST-resolving" (resolving_payload rq u timeout);
           Requested u (fetchingOptions this);
           Emitted "VAST-resolved" (resolved_payload rq u data (t - t0))] ++ tl.
Proof.
  intros H. rewrite (run_reaches_resolved _ _ _ _ _ _ _ _ _ _ _ _ H). simpl.
  destruct (emitter_body env e _ _) as [[]| |]; [|by eexists..].
  destruct (upd _ _ st) as [[[]| |] st']; by eexists.
Qed.

(** C1 (as amended).  In the payload of "VAST-resolved" a field of
    [details] takes precedence over the named field of its name; a
    named field (url, previousUrl, wrapperDepth, error, duration,
    statusCode) has its own value exactly when [details] has no field
    of that name. *)
Theorem resolved_payload_details_take_precedence u timeout e g data t :
  reaches_resolved env rq this u timeout e g data t →
  ∃ p, trace (run upd env rq this st t0).2 !! 2%nat
       = Some (Emitted "VAST-resolved" (VObj p))
    ∧ (∀ k v, own_props (get_opt data "details") !! k = Some v → p !! k = Some v)
    ∧ (∀ k, own_props (get_opt data "details") !! k = None →
         p !! k = named_fields rq u data (t - t0) !! k)
    ∧ named_fields rq u data (t - t0) !! "url" = Some u
    ∧ named_fields rq u data (t - t0) !! "previousUrl"
      = Some (default_to VNull (previousUrl rq))
    ∧ named_fields rq u data (t - t0) !! "wrapperDepth"
      = Some (default_to (VNum 0) (wrapperDepth rq))
    ∧ named_fields rq u data (t - t0) !! "error"
      = Some (or_else (get_opt data "error") VNull)
    ∧ named_fields rq u data (t - t0) !! "duration" = Some (VNum (t - t0))
    ∧ named_fields rq u data (t - t0) !! "statusCode"
      = Some (or_else (get_opt data "statusCode") VNull).
Proof.
  intros H. destruct (run_prefix _ _ _ _ _ _ H) as [tl ->].
  eexists. split; [reflexivity|].
  split; [|split].
  - intros k v Hk. by rewrite spread_lookup, Hk.
  - intros k Hk. by rewrite spread_lookup, Hk.
  - repeat split; reflexivity.
Qed.

Lemma fault_free_settles u timeout e g data t :
  fault_free upd env rq this st t0 u timeout e g data t →
  promise_of (trace (run upd env rq this st t0).2)
  = (if truthy (get_opt data "error")
     then RejectedWith (get_opt data "error")
     else Fulfilled (get_opt data "xml"))
  ∧ settlements (trace (run upd env rq this st t0).2) = [settlement_of data].
Proof.
  intros H. rewrite (run_fault_free _ _ _ _ _ _ _ _ _ _ _ _ H). simpl.
  assert (Hs : settlements
    [Emitted "VAST-resolving" (resolving_payload rq u timeout);
     Requested u (fetchingOptions this);
     Emitted "VAST-resolved" (resolved_payload rq u data (t - t0));
     settlement_of data] = [settlement_of data]).
  { unfold settlements. simpl. by rewrite settlement_is_settlement. }
  split; [|exact Hs].
  rewrite <- promise_of_settlement. unfold promise_of. rewrite Hs.
  unfold settlements. simpl. by rewrite settlement_is_settlement.
Qed.

(** Settlement.  Whatever the collaborators do, a run calls at most one of
    [resolve] and [reject] (never both), and if it calls one, the
    transport has completed with a result and the call is the one for
    that result.  When the transport completes with a result object and
    no collaborator faults (the callback returns from both
    notifications, the estimator update returns), the promise is
    rejected with exactly the result's [error] if that is set (truthy),
    and is otherwise (the error undefined, say) fulfilled with the
    result's [xml]. *)
Theorem settles_with_transport_result :
  let tr := trace (run upd env rq this st t0).2 in
  (length (settlements tr) ≤ 1)%nat
  ∧ (settlements tr = []
     ∨ ∃ u g data t,
         get (urlHandler this) "get" = Normal (VFun g)
         ∧ get_body env g u (fetchingOptions this) = Normal (data, t)
         ∧ settlements tr = [settlement_of data])
  ∧ (∀ u timeout e g data t,
       fault_free upd env rq this st t0 u timeout e g data t →
       promise_of tr
       = (if truthy (get_opt data "error")
          then RejectedWith (get_opt data "error")
          else Fulfilled (get_opt data "xml"))
       ∧ settlements tr = [settlement_of data]
       ∧ (get_opt data "error" = VUndefined →
          promise_of tr = Fulfilled (get_opt data "xml"))).
Proof.
  intros tr. split; [apply run_settles_at_most_once|]. split.
  - apply (run_trace_settlements env rq this t0), run_trace_shape.
  - intros u timeout e g data t H.
    destruct (fault_free_settles _ _ _ _ _ _ H) as [Hp Hs].
    fold tr in Hp, Hs. split; [exact Hp|]. split; [exact Hs|].
    intros Hundef. rewrite Hp. by rewrite Hundef.
Qed.

(** Settlement, counted.  Whatever the collaborators do, a run calls
    [resolve] or [reject] at most once; when the transport completes
    with a result object and no collaborator faults, it does so exactly
    once and the promise is settled. *)
Theorem settles_at_most_once :
  let tr := trace (run upd env rq this st t0).2 in
  (length (settlements tr) ≤ 1)%nat
  ∧ (∀ u timeout e g data t,
       fault_free upd env rq this st t0 u timeout e g data t →
       length (settlements tr) = 1%nat ∧ promise_of tr ≠ Pending).
Proof.
  intros tr. split; [apply run_settles_at_most_once|].
  intros u timeout e g data t H.
  destruct (fault_free_settles u timeout e g data t H) as [Hp Hs].
  fold tr in Hp, Hs. rewrite Hs, Hp. split; [done|]. by case_match.
Qed.

(** C4 (as amended).  The wrapperDepth, previousUrl and wrapperAd of
    the request (0, null and null where the request leaves them
    undefined) are in the payload of "VAST-resolving" as supplied.  The
    payload of "VAST-resolved" has the same wrapperDepth and
    previousUrl unless [details] has a field of that name; the
    wrapperAd of the request is not put into it (its wrapperAd, if any,
    is the one of [details]). *)
Theorem lineage_forwarded u timeout e g data t :
  reaches_resolved env rq this u timeout e g data t →
  let tr := trace (run upd env rq this st t0).2 in
  let details := own_props (get_opt data "details") in
  ∃ p1 p2,
    tr !! 0%nat = Some (Emitted "VAST-resolving" (VObj p1))
    ∧ tr !! 2%nat = Some (Emitted "VAST-resolved" (VObj p2))
    ∧ p1 !! "wrapperDepth" = Some (default_to (VNum 0) (wrapperDepth rq))
    ∧ p1 !! "previousUrl" = Some (default_to VNull (previousUrl rq))
    ∧ p1 !! "wrapperAd" = Some (default_to VNull (wrapperAd rq))
    ∧ (details !! "wrapperDepth" = None →
       p2 !! "wrapperDepth" = Some (default_to (VNum 0) (wrapperDepth rq)))
    ∧ (details !! "previousUrl" = None →
       p2 !! "previousUrl" = Some (default_to VNull (previousUrl rq)))
    ∧ p2 !! "wrapperAd" = details !! "wrapperAd"
    ∧ (wrapperDepth rq ≠ VUndefined →
       default_to (VNum 0) (wrapperDepth rq) = wrapperDepth rq)
    ∧ (previousUrl rq ≠ VUndefined →
       default_to VNull (previousUrl rq) = previousUrl rq)
    ∧ (wrapperAd rq ≠ VUndefined →
       default_to VNull (wrapperAd rq) = wrapperAd rq).
Proof.
  intros H tr details. subst tr details.
  destruct (run_prefix _ _ _ _ _ _ H) as [tl ->].
  do 2 eexists. split; [reflexivity|]. split; [reflexivity|].
  split; [reflexivity|]. split; [reflexivity|]. split; [reflexivity|].
  split; [|split; [|split]].
  - intros Hk. by rewrite spread_lookup, Hk.
  - intros Hk. by rewrite spread_lookup, Hk.
  - rewrite spread_lookup. by case_match.
  - repeat split; apply default_to_supplied.
Qed.

Lemma forEach_filter_snoc (filters : list value) (filter u0 : value) :
  forEach_filter env (filters ++ [filter]) u0
  = match forEach_filter env filters u0 with
    | Normal v => call_filter env filter v
    | c => c
    end.
Proof.
  revert u0. induction filters as [|f fs IH]; intros u0; simpl.
  - by destruct (call_filter env filter u0).
  - destruct (call_filter env f u0); [apply IH|done..].
Qed.

(** C5 (as amended).  The filters are folded over the url from left to
    right in insertion order, the url of the request being the seed: an
    added filter goes to the end of the sequence, and running a
    sequence with one more filter at its end is running the sequence
    and then that filter.  With [f1] then [f2] in the pipeline, the url
    f2(f1(url)) is the one the transport is called with and the one in
    the payload of "VAST-resolving", whenever these happen.  The payload
    of "VAST-resolved", whenever it is emitted, has f2(f1(url)) as its
    url unless [details] has a url of its own, which is then the url
    of the payload.  In a run that gets to "VAST-resolved" all three
    do happen. *)
Theorem filters_fold_in_insertion_order (base : Fetcher) (f1 f2 : nat) (v1 v2 : value) :
  this = addURLTemplateFilter (VFun f2)
           (addURLTemplateFilter (VFun f1) (clearURLTemplateFilters base)) →
  filter_body env f1 (url rq) = Normal v1 →
  filter_body env f2 v1 = Normal v2 →
  (∀ (f : nat) (that : Fetcher),
     URLTemplateFilters (addURLTemplateFilter (VFun f) that)
     = URLTemplateFilters that ++ [VFun f])
  ∧ (∀ (filters : list value) (f : nat) (u0 : value),
       forEach_filter env (filters ++ [VFun f]) u0
       = match forEach_filter env filters u0 with
         | Normal v => filter_body env f v
         | c => c
         end)
  ∧ forEach_filter env (URLTemplateFilters this) (url rq) = Normal v2
  ∧ (∀ i u o, trace (run upd env rq this st t0).2 !! i = Some (Requested u o) →
       u = v2)
  ∧ (∀ i p, trace (run upd env rq this st t0).2 !! i
            = Some (Emitted "VAST-resolving" p) →
       get_opt p "url" = v2)
  ∧ (∀ i p, trace (run upd env rq this st t0).2 !! i
            = Some (Emitted "VAST-resolved" p) →
       ∃ g data t,
         get_body env g v2 (fetchingOptions this) = Normal (data, t)
         ∧ get_opt p "url"
           = default v2 (own_props (get_opt data "details") !! "url"))
  ∧ (∀ timeout e g data t,
       reaches_resolved env rq this v2 timeout e g data t →
       ∃ p1 p2 tl,
         trace (run upd env rq this st t0).2
         = Emitted "VAST-resolving" (VObj p1)
           :: Requested v2 (fetchingOptions this)
           :: Emitted "VAST-resolved" (VObj p2) :: tl
         ∧ p1 !! "url" = Some v2
         ∧ named_fields rq v2 data (t - t0) !! "url" = Some v2
         ∧ (own_props (get_opt data "details") !! "url" = None →
            p2 !! "url" = Some v2)
         ∧ (∀ v, own_props (get_opt data "details") !! "url" = Some v →
                 p2 !! "url" = Some v)).
Proof.
  intros Hthis H1 H2.
  assert (Hfs : URLTemplateFilters this = [VFun f1; VFun f2])
    by (rewrite Hthis; reflexivity).
  assert (Hfold : forEach_filter env (URLTemplateFilters this) (url rq) = Normal v2)
    by (rewrite Hfs; simpl; by rewrite H1, H2).
  split; [done|]. split; [intros; apply forEach_filter_snoc|].
  split; [exact Hfold|].
  pose proof (run_trace_shape upd env rq this st t0) as Hshape.
  split; [|split; [|split]].
  { intros i u o Hi. remember (trace (run upd env rq this st t0).2) as tr eqn:Htr.
    clear Htr. invert_trace Hshape;
      repeat (destruct i as [|i]; simplify_eq/=);
      try (by exfalso; eapply settlement_not_requested);
      congruence. }
  { intros i p Hi. remember (trace (run upd env rq this st t0).2) as tr eqn:Htr.
    clear Htr. invert_trace Hshape;
      repeat (destruct i as [|i]; simplify_eq/=);
      try (by exfalso; eapply settlement_not_emitted);
      (transitivity u; [reflexivity|congruence]). }
  { intros i p Hi. remember (trace (run upd env rq this st t0).2) as tr eqn:Htr.
    clear Htr. invert_trace Hshape;
      repeat (destruct i as [|i]; simplify_eq/=);
      try (by exfalso; eapply settlement_not_emitted);
      (assert (u = v2) as -> by congruence;
       do 3 eexists; split; [eassumption|];
       unfold resolved_payload; simpl; rewrite spread_lookup;
       by destruct (own_props (get_opt data "details") !! "url")). }
  clear Hshape.
  intros timeout e g data t H.
  destruct (run_prefix _ _ _ _ _ _ H) as [tl ->].
  do 3 eexists. split; [reflexivity|]. split; [reflexivity|]. split; [reflexivity|].
  split.
  - intros Hk. by rewrite spread_lookup, Hk.
  - intros v Hk. by rewrite spread_lookup, Hk.
Qed.

(** C7.  Whatever the collaborators do: a call of the transport is
    preceded by the "VAST-resolving" notification, and a
    "VAST-resolved" notification is preceded by both, in that order;
    a "VAST-resolving" notification carries the filtered url,
    previousUrl, wrapperDepth, maxWrapperDepth, the configured timeout
    and wrapperAd; and it is emitted, first of all, as soon as the
    filters return, the options are set and the callback is a
    function. *)
Theorem resolving_precedes_request_and_resolved :
  let tr := trace (run upd env rq this st t0).2 in
  (∀ i u o, tr !! i = Some (Requested u o) →
     (0 < i)%nat ∧ ∃ p, tr !! 0%nat = Some (Emitted "VAST-resolving" p))
  ∧ (∀ i p, tr !! i = Some (Emitted "VAST-resolved" p) →
     (1 < i)%nat
     ∧ ∃ p1 u o, tr !! 0%nat = Some (Emitted "VAST-resolving" p1)
                 ∧ tr !! 1%nat = Some (Requested u o))
  ∧ (∀ i p, tr !! i = Some (Emitted "VAST-resolving" p) →
     i = 0%nat
     ∧ ∃ u o,
         forEach_filter env (URLTemplateFilters this) (url rq) = Normal u
         ∧ p = VObj o
         ∧ o !! "url" = Some u
         ∧ o !! "previousUrl" = Some (default_to VNull (previousUrl rq))
         ∧ o !! "wrapperDepth" = Some (default_to (VNum 0) (wrapperDepth rq))
         ∧ o !! "maxWrapperDepth" = Some (maxWrapperDepth rq)
         ∧ get (fetchingOptions this) "timeout" = Normal (default VUndefined (o !! "timeout"))
         ∧ o !! "wrapperAd" = Some (default_to VNull (wrapperAd rq)))
  ∧ (∀ u timeout e,
       forEach_filter env (URLTemplateFilters this) (url rq) = Normal u →
       get (fetchingOptions this) "timeout" = Normal timeout →
       emitter rq = VFun e →
       tr !! 0%nat = Some (Emitted "VAST-resolving" (resolving_payload rq u timeout))).
Proof.
  intros tr.
  pose proof (run_trace_shape upd env rq this st t0) as Hshape. fold tr in Hshape.
  split; [|split; [|split]]; [clearbody tr..|].
  - intros i u o Hi. clear -Hi Hshape.
    invert_trace Hshape;
      repeat (destruct i as [|i]; simplify_eq/=);
      try (by exfalso; eapply settlement_not_requested);
      (split; [lia|by eexists]).
  - intros i p Hi. clear -Hi Hshape.
    invert_trace Hshape;
      repeat (destruct i as [|i]; simplify_eq/=);
      try (by exfalso; eapply settlement_not_emitted);
      (split; [lia|by do 3 eexists]).
  - intros i p Hi. clear -Hi Hshape.
    invert_trace Hshape;
      repeat (destruct i as [|i]; simplify_eq/=);
      try (by exfalso; eapply settlement_not_emitted);
      (split; [done|]; do 2 eexists; split; [eassumption|];
       split; [reflexivity|]; repeat split; try reflexivity; eassumption).
  - intros u timeout e Hf Ho He. subst tr. clear Hshape.
    destruct rq as [u0 mw em wd pu wa]; simpl in *. subst em.
    unfold_fetch. simpl. rewrite Hf, Ho. simpl.
    unfold resolving_payload. simpl.
    destruct (emitter_body env e _ _) as [[]| |]; simpl; [|done..].
    destruct (get (urlHandler this) "get") as [[| | | | | | |g]| |]; simpl; try done.
    destruct (get_body env g u (fetchingOptions this)) as [[data t]| |]; simpl; [|done..].
    destruct data; simpl; try done;
      destruct (emitter_body env e _ _) as [[]| |]; simpl; try done;
      destruct (upd _ _ st) as [[[]| |] st']; simpl; try done;
      by destruct (truthy _).
Qed.

End FetchProperties.

(** ** Configuration *)

(** C10.  For an options object whose timeout is falsy (undefined, null,
    false, 0, NaN, the empty string) the configured timeout is
    [DEFAULT_TIMEOUT], whatever that constant is, and a falsy
    withCredentials is configured as false; in particular the options
    [{timeout: 0}] configure the default, not 0.  A truthy timeout is
    configured as supplied. *)
Theorem setOptions_falsy_defaults (xhr_urlHandler DEFAULT_TIMEOUT : value)
    (o : obj) (this : Fetcher) :
  let options := VObj o in
  let result := setOptions xhr_urlHandler DEFAULT_TIMEOUT options this in
  result.1 = Normal tt
  ∧ (truthy (get_opt options "timeout") = false →
     get (fetchingOptions result.2) "timeout" = Normal DEFAULT_TIMEOUT)
  ∧ (truthy (get_opt options "withCredentials") = false →
     get (fetchingOptions result.2) "withCredentials" = Normal (VBool false))
  ∧ (o !! "timeout" = Some (VNum 0) →
     get (fetchingOptions result.2) "timeout" = Normal DEFAULT_TIMEOUT)
  ∧ (truthy (get_opt options "timeout") = true →
     get (fetchingOptions result.2) "timeout" = Normal (get_opt options "timeout")).
Proof.
  intros options result. subst options result. unfold setOptions. simpl.
  split; [reflexivity|].
  assert (Hto : ∀ a b : value,
    literal [("timeout", a); ("withCredentials", b)] !! "timeout" = Some a)
    by reflexivity.
  assert (Hwc : ∀ a b : value,
    literal [("timeout", a); ("withCredentials", b)] !! "withCredentials" = Some b)
    by reflexivity.
  rewrite Hto, Hwc. simpl. unfold or_else.
  split; [by intros ->|]. split; [by intros ->|]. split; [by intros ->|by intros ->].
Qed.

(** * The properties on the concrete world *)

Import Scenario.

Ltac solve_reaches := constructor; try reflexivity; by eexists.
Ltac solve_fault_free := constructor; [solve_reaches|reflexivity..].

(** C1, counterexample.  The transport is asked for http://a/vast.xml
    and completes with status code 200 and details that carry a url and
    a statusCode of their own: the payload of "VAST-resolved" has the
    url and the statusCode of the details, not the named ones. *)
Lemma details_shadow_named_fields :
  let tr := trace (fetch skipping 10 23 []).2 in
  (∃ o, tr !! 1%nat = Some (Requested (VStr "http://a/vast.xml") o))
  ∧ get_opt redirected_result "statusCode" = VNum 200
  ∧ ∃ p, tr !! 2%nat = Some (Emitted "VAST-resolved" (VObj p))
       ∧ p !! "url" = Some (VStr "http://cdn/final.xml")
       ∧ p !! "url" ≠ Some (VStr "http://a/vast.xml")
       ∧ p !! "statusCode" = Some (VNum 302)
       ∧ p !! "statusCode" ≠ Some (VNum 200).
Proof.
  split; [by eexists|]. split; [reflexivity|].
  eexists. split; [reflexivity|].
  repeat split; (reflexivity || discriminate).
Qed.

Lemma resolved_payload_details_take_precedence_witness :
  reaches_resolved env (request 10) (fetcher 23 [])
    (VStr "http://a/vast.xml") (VNum 120000) 10 23 redirected_result 1050
  ∧ ∃ p, trace (fetch skipping 10 23 []).2 !! 2%nat
         = Some (Emitted "VAST-resolved" (VObj p))
      ∧ p !! "url" = Some (VStr "http://cdn/final.xml")
      ∧ p !! "duration" = Some (VNum 50).
Proof.
  assert (H : reaches_resolved env (request 10) (fetcher 23 [])
    (VStr "http://a/vast.xml") (VNum 120000) 10 23 redirected_result 1050)
    by solve_reaches.
  split; [exact H|].
  destruct (resolved_payload_details_take_precedence skipping env (request 10)
              (fetcher 23 []) [] 1000 _ _ _ _ _ _ H)
    as (p & Hp & Hdetails & Hnamed & _ & _ & _ & _ & Hduration & _).
  exists p. split; [exact Hp|]. split.
  - apply Hdetails. reflexivity.
  - rewrite Hnamed; [exact Hduration|reflexivity].
Defined.

Lemma settles_with_transport_result_witness :
  fault_free skipping env (request 10) (fetcher 20 []) [] 1000
    (VStr "http://a/vast.xml") (VNum 120000) 10 20 sized_result 1050
  ∧ promise_of (trace (fetch skipping 10 20 []).2) = Fulfilled (VStr "<VAST/>")
  ∧ fault_free skipping env (request 10) (fetcher 21 []) [] 1000
      (VStr "http://a/vast.xml") (VNum 120000) 10 21 failed_result 1050
  ∧ promise_of (trace (fetch skipping 10 21 []).2) = RejectedWith NetworkTimeoutError.
Proof.
  assert (H : fault_free skipping env (request 10) (fetcher 20 []) [] 1000
    (VStr "http://a/vast.xml") (VNum 120000) 10 20 sized_result 1050)
    by solve_fault_free.
  assert (H' : fault_free skipping env (request 10) (fetcher 21 []) [] 1000
    (VStr "http://a/vast.xml") (VNum 120000) 10 21 failed_result 1050)
    by solve_fault_free.
  split; [exact H|]. split.
  - exact (proj1 (proj2 (proj2 (settles_with_transport_result skipping env
                    (request 10) (fetcher 20 []) [] 1000)) _ _ _ _ _ _ H)).
  - split; [exact H'|].
    exact (proj1 (proj2 (proj2 (settles_with_transport_result skipping env
                    (request 10) (fetcher 21 []) [] 1000)) _ _ _ _ _ _ H')).
Defined.

(** C3.  The code at the failing input: the transport completes with a
    document and the notification callback throws from
    "VAST-resolved".  The executor ends in its [catch], the fault is
    logged, neither [resolve] nor [reject] is called, and the promise
    stays pending, where the claim has it settled.  The same when the
    estimator update throws, and when the transport never completes. *)
Lemma swallowed_fault_leaves_promise_pending :
  (fetch skipping 11 20 []).1 = Normal tt
  ∧ last (trace (fetch skipping 11 20 []).2) = Some (Logged listenerFault)
  ∧ settlements (trace (fetch skipping 11 20 []).2) = []
  ∧ promise_of (trace (fetch skipping 11 20 []).2) = Pending
  ∧ last (trace (fetch failing_update 10 20 []).2) = Some (Logged listenerFault)
  ∧ promise_of (trace (fetch failing_update 10 20 []).2) = Pending
  ∧ promise_of (trace (fetch skipping 10 22 []).2) = Pending.
Proof. repeat split; reflexivity. Qed.

(** C2.  The code at the failing input: the transport completes with a
    result (a document, error undefined; or an error) and the
    notification callback throws from "VAST-resolved".  The promise is
    neither fulfilled with the document nor rejected with the error:
    the [catch] logs the fault and the promise stays pending. *)
Lemma completed_transport_left_pending :
  get_body env 20 (VStr "http://a/vast.xml") (fetchingOptions (fetcher 20 []))
  = Normal (sized_result, 1050)
  ∧ get_opt sized_result "error" = VUndefined
  ∧ get_opt sized_result "xml" = VStr "<VAST/>"
  ∧ (∃ o, trace (fetch skipping 11 20 []).2 !! 1%nat
          = Some (Requested (VStr "http://a/vast.xml") o))
  ∧ promise_of (trace (fetch skipping 11 20 []).2) = Pending
  ∧ promise_of (trace (fetch skipping 11 20 []).2) ≠ Fulfilled (VStr "<VAST/>")
  ∧ get_body env 21 (VStr "http://a/vast.xml") (fetchingOptions (fetcher 21 []))
    = Normal (failed_result, 1050)
  ∧ get_opt failed_result "error" = NetworkTimeoutError
  ∧ promise_of (trace (fetch skipping 11 21 []).2) = Pending
  ∧ promise_of (trace (fetch skipping 11 21 []).2) ≠ RejectedWith NetworkTimeoutError.
Proof.
  split; [reflexivity|]. split; [reflexivity|]. split; [reflexivity|].
  split; [by eexists|]. split; [reflexivity|]. split; [discriminate|].
  split; [reflexivity|]. split; [reflexivity|]. split; [reflexivity|discriminate].
Qed.

Lemma settles_at_most_once_witness :
  (length (settlements (trace (fetch skipping 11 20 []).2)) ≤ 1)%nat
  ∧ fault_free skipping env (request 10) (fetcher 20 []) [] 1000
      (VStr "http://a/vast.xml") (VNum 120000) 10 20 sized_result 1050
  ∧ length (settlements (trace (fetch skipping 10 20 []).2)) = 1%nat.
Proof.
  assert (H : fault_free skipping env (request 10) (fetcher 20 []) [] 1000
    (VStr "http://a/vast.xml") (VNum 120000) 10 20 sized_result 1050)
    by solve_fault_free.
  split; [|split; [exact H|]].
  - exact (proj1 (settles_at_most_once skipping env (request 11) (fetcher 20 []) [] 1000)).
  - exact (proj1 (proj2 (settles_at_most_once skipping env (request 10)
                           (fetcher 20 []) [] 1000) _ _ _ _ _ _ H)).
Defined.

(** C4, counterexample.  The request carries a wrapperAd; it is in the
    payload of "VAST-resolving", and the payload of "VAST-resolved" has
    no wrapperAd at all. *)
Lemma wrapperAd_missing_from_resolved :
  let tr := trace (fetch skipping 10 20 []).2 in
  wrapperAd (request 10) = wrapper
  ∧ (∃ p1, tr !! 0%nat = Some (Emitted "VAST-resolving" (VObj p1))
           ∧ p1 !! "wrapperAd" = Some wrapper)
  ∧ (∃ p2, tr !! 2%nat = Some (Emitted "VAST-resolved" (VObj p2))
           ∧ p2 !! "wrapperAd" = None
           ∧ p2 !! "wrapperAd" ≠ Some wrapper).
Proof.
  split; [reflexivity|]. split; eexists; (split; [reflexivity|]); [reflexivity|].
  split; [reflexivity|discriminate].
Qed.

Lemma lineage_forwarded_witness :
  reaches_resolved env (request 10) (fetcher 20 [])
    (VStr "http://a/vast.xml") (VNum 120000) 10 20 sized_result 1050
  ∧ ∃ p1 p2,
      trace (fetch skipping 10 20 []).2 !! 0%nat = Some (Emitted "VAST-resolving" (VObj p1))
      ∧ trace (fetch skipping 10 20 []).2 !! 2%nat = Some (Emitted "VAST-resolved" (VObj p2))
      ∧ p1 !! "wrapperDepth" = Some (VNum 0)
      ∧ p1 !! "previousUrl" = Some VNull
      ∧ p1 !! "wrapperAd" = Some wrapper
      ∧ p2 !! "wrapperDepth" = Some (VNum 0)
      ∧ p2 !! "previousUrl" = Some VNull
      ∧ p2 !! "wrapperAd" = None.
Proof.
  assert (H : reaches_resolved env (request 10) (fetcher 20 [])
    (VStr "http://a/vast.xml") (VNum 120000) 10 20 sized_result 1050)
    by solve_reaches.
  split; [exact H|].
  destruct (lineage_forwarded skipping env (request 10) (fetcher 20 []) [] 1000
              _ _ _ _ _ _ H)
    as (p1 & p2 & H0 & H2 & Hd1 & Hp1 & Ha1 & Hd2 & Hp2 & Ha2 & _).
  exists p1, p2. repeat split; try assumption.
  - apply Hd2. reflexivity.
  - apply Hp2. reflexivity.
Defined.

(** C5, counterexample.  With the filters 1 then 2 in the pipeline the
    transport is asked for, and "VAST-resolving" announces,
    f2(f1(url)); the transport completes with details that carry a url
    of their own, and the url in the payload of "VAST-resolved" is that
    one, not f2(f1(url)). *)
Lemma resolved_url_is_not_the_filtered_url :
  let tr := trace (fetch skipping 10 23 [VFun 1; VFun 2]).2 in
  forEach_filter env [VFun 1; VFun 2] (VStr "http://a/vast.xml")
  = Normal (VStr "http://a/vast.xml?cb=1&gdpr=0")
  ∧ (∃ o, tr !! 1%nat = Some (Requested (VStr "http://a/vast.xml?cb=1&gdpr=0") o))
  ∧ (∃ p1, tr !! 0%nat = Some (Emitted "VAST-resolving" (VObj p1))
           ∧ p1 !! "url" = Some (VStr "http://a/vast.xml?cb=1&gdpr=0"))
  ∧ (∃ p2, tr !! 2%nat = Some (Emitted "VAST-resolved" (VObj p2))
           ∧ p2 !! "url" = Some (VStr "http://cdn/final.xml")
           ∧ p2 !! "url" ≠ Some (VStr "http://a/vast.xml?cb=1&gdpr=0")).
Proof.
  split; [reflexivity|]. split; [by eexists|].
  split; eexists; (split; [reflexivity|]); [reflexivity|].
  split; [reflexivity|discriminate].
Qed.

Lemma filters_fold_in_insertion_order_witness :
  fetcher 20 [VFun 1; VFun 2]
  = addURLTemplateFilter (VFun 2)
      (addURLTemplateFilter (VFun 1) (clearURLTemplateFilters (fetcher 20 [])))
  ∧ filter_body env 1 (url (request 10)) = Normal (VStr "http://a/vast.xml?cb=1")
  ∧ filter_body env 2 (VStr "http://a/vast.xml?cb=1")
    = Normal (VStr "http://a/vast.xml?cb=1&gdpr=0")
  ∧ reaches_resolved env (request 10) (fetcher 20 [VFun 1; VFun 2])
      (VStr "http://a/vast.xml?cb=1&gdpr=0") (VNum 120000) 10 20 sized_result 1050
  ∧ forEach_filter env (URLTemplateFilters (fetcher 20 [VFun 1; VFun 2]))
      (url (request 10)) = Normal (VStr "http://a/vast.xml?cb=1&gdpr=0")
  ∧ ∃ p1 p2 tl,
      trace (fetch skipping 10 20 [VFun 1; VFun 2]).2
      = Emitted "VAST-resolving" (VObj p1)
        :: Requested (VStr "http://a/vast.xml?cb=1&gdpr=0")
             (fetchingOptions (fetcher 20 [VFun 1; VFun 2]))
        :: Emitted "VAST-resolved" (VObj p2) :: tl
      ∧ p1 !! "url" = Some (VStr "http://a/vast.xml?cb=1&gdpr=0")
      ∧ p2 !! "url" = Some (VStr "http://a/vast.xml?cb=1&gdpr=0").
Proof.
  assert (H : reaches_resolved env (request 10) (fetcher 20 [VFun 1; VFun 2])
    (VStr "http://a/vast.xml?cb=1&gdpr=0") (VNum 120000) 10 20 sized_result 1050)
    by solve_reaches.
  destruct (filters_fold_in_insertion_order skipping env (request 10)
              (fetcher 20 [VFun 1; VFun 2]) [] 1000 (fetcher 20 []) 1 2
              (VStr "http://a/vast.xml?cb=1") (VStr "http://a/vast.xml?cb=1&gdpr=0")
              eq_refl eq_refl eq_refl)
    as (_ & _ & Hfold & _ & _ & _ & Hrun).
  split; [reflexivity|]. split; [reflexivity|]. split; [reflexivity|].
  split; [exact H|]. split; [exact Hfold|].
  destruct (Hrun _ _ _ _ _ H) as (p1 & p2 & tl & Htr & H1 & _ & H2 & _).
  exists p1, p2, tl. split; [exact Htr|]. split; [exact H1|].
  apply H2. reflexivity.
Defined.

Lemma resolving_precedes_request_and_resolved_witness :
  let tr := trace (fetch skipping 11 20 []).2 in
  (∃ u o, tr !! 1%nat = Some (Requested u o))
  ∧ (∃ p, tr !! 0%nat = Some (Emitted "VAST-resolving" p))
  ∧ (∃ p, tr !! 2%nat = Some (Emitted "VAST-resolved" p))
  ∧ tr !! 0%nat
    = Some (Emitted "VAST-resolving"
              (resolving_payload (request 11) (VStr "http://a/vast.xml") (VNum 120000))).
Proof.
  intros tr.
  destruct (resolving_precedes_request_and_resolved skipping env (request 11)
              (fetcher 20 []) [] 1000) as (Hreq & Hres & _ & Hfirst).
  assert (H1 : tr !! 1%nat
               = Some (Requested (VStr "http://a/vast.xml") (fetchingOptions (fetcher 20 []))))
    by reflexivity.
  assert (H2 : tr !! 2%nat
               = Some (Emitted "VAST-resolved"
                         (resolved_payload (request 11) (VStr "http://a/vast.xml")
                            sized_result 50)))
    by reflexivity.
  split; [by do 2 eexists|].
  split; [exact (proj2 (Hreq _ _ _ H1))|].
  split; [by eexists|].
  exact (Hfirst (VStr "http://a/vast.xml") (VNum 120000) 11%nat eq_refl eq_refl eq_refl).
Defined.

Lemma count_is_floored_tally_witness :
  let ops := [RemoveLast; Add (VFun 1); Add (VNum 3); Add (VFun 2);
              RemoveLast; Clear; RemoveLast; Add (VFun 1)] in
  Z.of_nat (countURLTemplateFilters (run_ops ops)) = 1
  ∧ countURLTemplateFilters (run_ops []) = 0%nat
  ∧ run_ops ([] ++ [RemoveLast]) = run_ops [].
Proof.
  intros ops.
  split; [exact (proj1 (count_is_floored_tally ops))|].
  split; [reflexivity|].
  exact (proj1 (proj2 (proj2 (count_is_floored_tally []))) eq_refl).
Defined.

Lemma add_non_callable_is_noop_witness :
  typeof (VStr "not a function") ≠ "function"
  ∧ addURLTemplateFilter (VStr "not a function") (fetcher 20 [VFun 1])
    = fetcher 20 [VFun 1].
Proof.
  assert (H : typeof (VStr "not a function") ≠ "function") by discriminate.
  split; [exact H|].
  exact (proj1 (add_non_callable_is_noop _ (fetcher 20 [VFun 1]) H)).
Defined.

Lemma setOptions_falsy_defaults_witness :
  let o : obj := {[ "timeout" := VNum 0; "withCredentials" := VStr "" ]} in
  truthy (get_opt (VObj o) "timeout") = false
  ∧ truthy (get_opt (VObj o) "withCredentials") = false
  ∧ o !! "timeout" = Some (VNum 0)
  ∧ get (fetchingOptions
           (setOptions (handler 20) DEFAULT_TIMEOUT (VObj o) constructor).2) "timeout"
    = Normal (VNum 120000)
  ∧ get (fetchingOptions
           (setOptions (handler 20) DEFAULT_TIMEOUT (VObj o) constructor).2)
      "withCredentials"
    = Normal (VBool false).
Proof.
  intros o.
  destruct (setOptions_falsy_defaults (handler 20) DEFAULT_TIMEOUT o constructor)
    as (_ & Hto & Hwc & Hzero & _).
  split; [reflexivity|]. split; [reflexivity|]. split; [reflexivity|].
  split; [exact (Hzero eq_refl)|exact (Hwc eq_refl)].
Defined.


(** * Further properties *)

(** ** Configuration *)

Lemma options_literal_lookup (a b : value) (k : string) :
  literal [("timeout", a); ("withCredentials", b)] !! k
  = if decide (k = "withCredentials") then Some b
    else if decide (k = "timeout") then Some a else None.
Proof.
  unfold literal. simpl.
  rewrite lookup_insert. case_decide; [by rewrite decide_True|].
  rewrite decide_False by done.
  rewrite lookup_insert. case_decide; [by rewrite decide_True|].
  by rewrite decide_False.
Qed.

Lemma options_literal_keys (a b : value) (k : string) :
  is_Some (literal [("timeout", a); ("withCredentials", b)] !! k)
  ↔ k = "timeout" ∨ k = "withCredentials".
Proof.
  rewrite options_literal_lookup.
  destruct (decide (k = "withCredentials")) as [->|Hw]; [split; [by right|by eexists]|].
  destruct (decide (k = "timeout")) as [->|Ht]; [split; [by left|by eexists]|].
  split; [by intros [? ?]|by intros [?|?]].
Qed.

(** X1.  [setOptions] takes the url handler from [options.urlHandler] if
    that is truthy, else from the lower-case [options.urlhandler] if
    that is truthy, else it takes the imported default. *)
Theorem setOptions_urlHandler_precedence (xhr_urlHandler DEFAULT_TIMEOUT : value)
    (o : obj) (this : Fetcher) :
  let chosen := urlHandler (setOptions xhr_urlHandler DEFAULT_TIMEOUT (VObj o) this).2 in
  (truthy (get_opt (VObj o) "urlHandler") = true →
   chosen = get_opt (VObj o) "urlHandler")
  ∧ (truthy (get_opt (VObj o) "urlHandler") = false →
     truthy (get_opt (VObj o) "urlhandler") = true →
     chosen = get_opt (VObj o) "urlhandler")
  ∧ (truthy (get_opt (VObj o) "urlHandler") = false →
     truthy (get_opt (VObj o) "urlhandler") = false →
     chosen = xhr_urlHandler).
Proof.
  intros chosen. subst chosen. simpl. unfold or_else.
  split; [|split].
  - intros H. rewrite H. simpl. by rewrite H.
  - intros H1 H2. rewrite H1. simpl. by rewrite H2.
  - intros H1 H2. rewrite H1. simpl. by rewrite H2.
Qed.

(** X2.  A call of [setOptions] that does not throw (its argument is
    not null) replaces the configuration as a whole: after it the
    fetcher is what the call alone would have made it, whatever an
    earlier call had set; the filters stay; and the options that a
    later fetch uses have the properties timeout and withCredentials
    and no other, so any other option is dropped. *)
Theorem setOptions_replaces_configuration (xhr_urlHandler DEFAULT_TIMEOUT : value)
    (options1 options2 : value) (this : Fetcher) :
  let configure := setOptions xhr_urlHandler DEFAULT_TIMEOUT in
  (options2 ≠ VNull →
   configure options2 (configure options1 this).2 = configure options2 this)
  ∧ URLTemplateFilters (configure options1 this).2 = URLTemplateFilters this
  ∧ ((configure options1 this).1 = Normal tt →
     ∃ opts, fetchingOptions (configure options1 this).2 = VObj opts
       ∧ ∀ k, is_Some (opts !! k) ↔ k = "timeout" ∨ k = "withCredentials").
Proof.
  intros configure. subst configure. unfold setOptions.
  split; [|split].
  - intros Hnull. destruct options1; destruct options2; done.
  - by destruct options1.
  - destruct options1; simpl; try done; intros _; eexists;
      (split; [reflexivity|]); intros k; apply options_literal_keys.
Qed.

(** X3.  [setOptions()] without an argument configures the defaults, as
    [setOptions({})] does; [setOptions(null)] throws a TypeError before
    it has assigned anything, so the fetcher is as it was. *)
Theorem setOptions_without_options (xhr_urlHandler DEFAULT_TIMEOUT : value)
    (this : Fetcher) :
  let configure := setOptions xhr_urlHandler DEFAULT_TIMEOUT in
  configure VUndefined this = configure (VObj ∅) this
  ∧ (configure VUndefined this).1 = Normal tt
  ∧ urlHandler (configure VUndefined this).2 = xhr_urlHandler
  ∧ get (fetchingOptions (configure VUndefined this).2) "timeout"
    = Normal DEFAULT_TIMEOUT
  ∧ get (fetchingOptions (configure VUndefined this).2) "withCredentials"
    = Normal (VBool false)
  ∧ configure VNull this = (Throw TypeError, this).
Proof.
  intros configure. subst configure. unfold setOptions. simpl.
  rewrite !options_literal_lookup. simpl. by repeat split.
Qed.

(** ** The filter pipeline *)

Lemma remove_after_add (f : nat) (this : Fetcher) :
  removeURLTemplateFilter (addURLTemplateFilter (VFun f) this) = this.
Proof.
  destruct this as [fs h o]. unfold removeURLTemplateFilter, addURLTemplateFilter.
  simpl. by rewrite removelast_last.
Qed.

Lemma add_all_snoc (fs : list nat) (f : nat) (this : Fetcher) :
  add_all (fs ++ [f]) this = addURLTemplateFilter (VFun f) (add_all fs this).
Proof. unfold add_all. by rewrite foldl_snoc. Qed.

Lemma add_all_filters (fs : list nat) (this : Fetcher) :
  URLTemplateFilters (add_all fs this) = URLTemplateFilters this ++ (VFun <$> fs).
Proof.
  induction fs as [|f fs IH] using rev_ind.
  - simpl. by rewrite app_nil_r.
  - rewrite add_all_snoc, fmap_app. simpl. rewrite IH. by rewrite app_assoc.
Qed.

(** X4.  Removal undoes addition, last in first out: after the functions
    [fs] were added, the sequence is the old one followed by them in the
    order of addition, one removal takes the last of them away, and as
    many removals as there were additions give back the fetcher as it
    was. *)
Theorem removals_undo_additions (fs : list nat) (this : Fetcher) :
  URLTemplateFilters (add_all fs this) = URLTemplateFilters this ++ (VFun <$> fs)
  ∧ (∀ f, removeURLTemplateFilter (add_all (fs ++ [f]) this) = add_all fs this)
  ∧ remove_times (length fs) (add_all fs this) = this.
Proof.
  split; [apply add_all_filters|]. split.
  - intros f. by rewrite add_all_snoc, remove_after_add.
  - induction fs as [|f fs IH] using rev_ind; [done|].
    rewrite length_app. simpl. rewrite Nat.add_1_r.
    unfold remove_times. rewrite Nat.iter_succ_r.
    by rewrite add_all_snoc, remove_after_add.
Qed.

Lemma Forall_removelast {A} (P : A → Prop) (l : list A) :
  Forall P l → Forall P (removelast l).
Proof.
  induction 1 as [|x l Hx Hl IH]; simpl; [constructor|].
  destruct l; [constructor|]. by constructor.
Qed.

Lemma apply_op_functions (this : Fetcher) (o : op) :
  Forall (λ v, typeof v = "function") (URLTemplateFilters this) →
  Forall (λ v, typeof v = "function") (URLTemplateFilters (apply_op this o)).
Proof.
  intros H. destruct o as [filter| |]; simpl.
  - unfold addURLTemplateFilter. case_decide; [|done].
    simpl. apply Forall_app. split; [done|]. by constructor.
  - by apply Forall_removelast.
  - constructor.
Qed.

(** X5.  Whatever sequence of add, removeLast and clear a new fetcher
    has seen, its pipeline holds functions only; so running the
    pipeline never fails on an entry that cannot be called: each entry
    is called, as the function it is. *)
Theorem pipeline_holds_functions_only (ops : list op) (v : value) :
  v ∈ URLTemplateFilters (run_ops ops) →
  typeof v = "function"
  ∧ ∃ f, v = VFun f ∧ ∀ env u, call_filter env v u = filter_body env f u.
Proof.
  assert (Hall : Forall (λ v, typeof v = "function") (URLTemplateFilters (run_ops ops))).
  { induction ops as [|o ops IH] using rev_ind; [constructor|].
    rewrite run_ops_snoc. by apply apply_op_functions. }
  intros Hv. rewrite Forall_forall in Hall. specialize (Hall v Hv).
  split; [done|]. destruct v; try discriminate. by eexists.
Qed.

Lemma apply_ops_configuration (ops : list op) (this : Fetcher) :
  urlHandler (foldl apply_op this ops) = urlHandler this
  ∧ fetchingOptions (foldl apply_op this ops) = fetchingOptions this.
Proof.
  induction ops as [|o ops IH] using rev_ind; [done|].
  rewrite foldl_snoc. destruct IH as [<- <-].
  destruct o as [filter| |]; simpl; [|done..].
  unfold addURLTemplateFilter. by case_decide.
Qed.

(** X6.  The filter operations leave the configuration alone: after any
    sequence of add, removeLast and clear the url handler and the
    fetching options are the ones the fetcher had. *)
Theorem filter_operations_keep_configuration (ops : list op) (this : Fetcher) :
  urlHandler (foldl apply_op this ops) = urlHandler this
  ∧ fetchingOptions (foldl apply_op this ops) = fetchingOptions this.
Proof. apply apply_ops_configuration. Qed.

(** ** Running the pipeline *)

Lemma forEach_filter_app env (filters1 filters2 : list value) (u : value) :
  forEach_filter env (filters1 ++ filters2) u
  = match forEach_filter env filters1 u with
    | Normal v => forEach_filter env filters2 v
    | c => c
    end.
Proof.
  revert u. induction filters1 as [|f fs IH]; intros u; simpl; [done|].
  destruct (call_filter env f u); [apply IH|done..].
Qed.

(** X7.  Running a pipeline that is one sequence of filters followed by
    another is running the first on the url and the second on its
    result; when a filter of the first throws, that throw is the
    outcome and no later filter is called, whatever the later filters
    are. *)
Theorem pipeline_composes_and_stops_at_a_throw env (filters1 filters2 : list value)
    (u : value) :
  (∀ v, forEach_filter env filters1 u = Normal v →
        forEach_filter env (filters1 ++ filters2) u = forEach_filter env filters2 v)
  ∧ (∀ x, forEach_filter env filters1 u = Throw x →
          forEach_filter env (filters1 ++ filters2) u = Throw x).
Proof.
  split; intros y Hy; by rewrite forEach_filter_app, Hy.
Qed.

(** ** Runs that end early *)

Lemma get_Throw (v : value) (k : string) (x : value) :
  get v k = Throw x → x = TypeError ∧ nullish v = true.
Proof. destruct v; simpl; intros; by simplify_eq. Qed.

Lemma get_nullish (v : value) (k : string) :
  nullish v = true → get v k = Throw TypeError.
Proof. by destruct v. Qed.

Lemma get_not_nullish (v : value) (k : string) :
  nullish v = false → get v k = Normal (get_opt v k).
Proof. by destruct v. Qed.

Section EarlyEnds.

Context {S : Type}.
Variable upd : value → value → M S unit.
Variable env : Env.
Variable rq : FetchRequest.
Variable this : Fetcher.
Variable st : S.
Variable t0 : Z.

Lemma run_filter_fault :
  match forEach_filter env (URLTemplateFilters this) (url rq) with
  | Normal _ => True
  | Throw x => run upd env rq this st t0 = (Throw x, Store st t0 [])
  | Diverge => run upd env rq this st t0 = (Diverge, Store st t0 [])
  end.
Proof.
  destruct rq as [u0 mw em wd pu wa]. unfold_fetch. simpl.
  by destruct (forEach_filter env (URLTemplateFilters this) u0).
Qed.

Lemma run_options_unset u :
  forEach_filter env (URLTemplateFilters this) (url rq) = Normal u →
  nullish (fetchingOptions this) = true →
  run upd env rq this st t0 = (Normal tt, Store st t0 [Logged TypeError]).
Proof.
  intros Hf Ho. destruct rq as [u0 mw em wd pu wa]. simpl in *.
  unfold_fetch. simpl. by rewrite Hf, (get_nullish _ _ Ho).
Qed.

Lemma run_emitter_not_callable u timeout :
  forEach_filter env (URLTemplateFilters this) (url rq) = Normal u →
  get (fetchingOptions this) "timeout" = Normal timeout →
  typeof (emitter rq) ≠ "function" →
  run upd env rq this st t0 = (Normal tt, Store st t0 [Logged TypeError]).
Proof.
  intros Hf Ho He. destruct rq as [u0 mw em wd pu wa]. simpl in *.
  unfold_fetch. simpl. rewrite Hf, Ho. by destruct em.
Qed.

Lemma run_resolving_returns u timeout e (c : completion unit) :
  forEach_filter env (URLTemplateFilters this) (url rq) = Normal u →
  get (fetchingOptions this) "timeout" = Normal timeout →
  emitter rq = VFun e →
  emitter_body env e "VAST-resolving" (resolving_payload rq u timeout) = c →
  match c with
  | Normal _ => True
  | Throw x =>
      run upd env rq this st t0
      = (Normal tt, Store st t0 [Emitted "VAST-resolving" (resolving_payload rq u timeout);
                                 Logged x])
  | Diverge =>
      run upd env rq this st t0
      = (Diverge, Store st t0 [Emitted "VAST-resolving" (resolving_payload rq u timeout)])
  end.
Proof.
  intros Hf Ho He Hr. destruct rq as [u0 mw em wd pu wa]. simpl in *. subst em.
  destruct c as [[]|x|]; [done|..];
    unfold_fetch; simpl; rewrite Hf, Ho;
    unfold resolving_payload in Hr; simpl in Hr; by rewrite Hr.
Qed.

Lemma run_get_not_callable u timeout e :
  forEach_filter env (URLTemplateFilters this) (url rq) = Normal u →
  get (fetchingOptions this) "timeout" = Normal timeout →
  emitter rq = VFun e →
  emitter_body env e "VAST-resolving" (resolving_payload rq u timeout) = Normal tt →
  typeof (get_opt (urlHandler this) "get") ≠ "function" →
  run upd env rq this st t0
  = (Normal tt, Store st t0 [Emitted "VAST-resolving" (resolving_payload rq u timeout);
                             Logged TypeError]).
Proof.
  intros Hf Ho He Hr Hg. destruct rq as [u0 mw em wd pu wa]. simpl in *. subst em.
  unfold_fetch. simpl. rewrite Hf, Ho.
  unfold resolving_payload in Hr; simpl in Hr. rewrite Hr.
  destruct (urlHandler this) as [| | | | | |h|]; simpl in *; try done.
  by destruct (default VUndefined (h !! "get")).
Qed.

(** From the call of the transport on, the run is determined by what
    the transport, the callback and the estimator do. *)
Lemma run_reaches_request u timeout e g :
  reaches_request env rq this u timeout e g →
  run upd env rq this st t0 =
    let tr := [Emitted "VAST-resolving" (resolving_payload rq u timeout);
               Requested u (fetchingOptions this)] in
    match get_body env g u (fetchingOptions this) with
    | Normal (data, t) =>
        if nullish data
        then (Normal tt, Store st t (tr ++ [Logged TypeError]))
        else
          let resolved := Emitted "VAST-resolved" (resolved_payload rq u data (t - t0)) in
          match emitter_body env e "VAST-resolved" (resolved_payload rq u data (t - t0)) with
          | Normal _ =>
              match upd (byteLength_of data) (VNum (t - t0)) st with
              | (Normal _, st') =>
                  (Normal tt, Store st' t (tr ++ [resolved; settlement_of data]))
              | (Throw x, st') => (Normal tt, Store st' t (tr ++ [resolved; Logged x]))
              | (Diverge, st') => (Diverge, Store st' t (tr ++ [resolved]))
              end
          | Throw x => (Normal tt, Store st t (tr ++ [resolved; Logged x]))
          | Diverge => (Diverge, Store st t (tr ++ [resolved]))
          end
    | Throw x => (Normal tt, Store st t0 (tr ++ [Logged x]))
    | Diverge => (Diverge, Store st t0 tr)
    end.
Proof.
  intros [Hf Ho He Hr Hh].
  destruct rq as [u0 mw em wd pu wa]; simpl in *. subst em.
  unfold_fetch. simpl. rewrite Hf, Ho.
  unfold resolving_payload in Hr; simpl in Hr. rewrite Hr, Hh. simpl.
  destruct (get_body env g u (fetchingOptions this)) as [[data t]| |]; simpl; [|done..].
  unfold resolved_payload, named_fields, Math_round, byteLength_of, settlement_of.
  destruct (nullish data) eqn:Hn.
  - by rewrite (get_nullish data "error" Hn).
  - rewrite !(get_not_nullish data _ Hn). simpl.
    destruct (emitter_body env e "VAST-resolved" _) as [[]| |]; simpl; [|done..].
    destruct (upd _ _ st) as [[[]| |] st']; simpl; [|done..].
    rewrite ?(get_not_nullish data _ Hn). simpl.
    destruct (truthy (get_opt data "error")); simpl; [done|].
    by rewrite ?(get_not_nullish data _ Hn).
Qed.

End EarlyEnds.

Section FetchEdges.

Context {S : Type}.
Variable upd : value → value → M S unit.
Variable env : Env.
Variable rq : FetchRequest.
Variable this : Fetcher.
Variable st : S.
Variable t0 : Z.

(** X8.  A fetch on a fetcher on which [setOptions] was never called
    (a new fetcher, whatever filters were added to it since) reads
    [timeout] of the undefined options inside the [try]: when the
    filters return, the TypeError is logged and that is all; nothing is
    emitted, the transport is not called, the estimator is untouched
    and the promise stays pending. *)
Theorem fetch_without_setOptions (ops : list op) (u : value) :
  forEach_filter env (URLTemplateFilters (run_ops ops)) (url rq) = Normal u →
  run upd env rq (run_ops ops) st t0 = (Normal tt, Store st t0 [Logged TypeError])
  ∧ promise_of (trace (run upd env rq (run_ops ops) st t0).2) = Pending.
Proof.
  intros Hf.
  assert (Hrun : run upd env rq (run_ops ops) st t0
                 = (Normal tt, Store st t0 [Logged TypeError])).
  { apply (run_options_unset _ _ _ _ _ _ u Hf).
    unfold run_ops. by rewrite (proj2 (apply_ops_configuration ops constructor)). }
  by rewrite Hrun.
Qed.

(** X9.  The filters run outside the [try]: when one of them throws,
    the throw escapes the executor; nothing is logged, nothing emitted,
    the transport is not called, the estimator is untouched and the
    promise stays pending. *)
Theorem filter_throw_escapes (x : value) :
  forEach_filter env (URLTemplateFilters this) (url rq) = Throw x →
  run upd env rq this st t0 = (Throw x, Store st t0 [])
  ∧ promise_of (trace (run upd env rq this st t0).2) = Pending.
Proof.
  intros Hf. pose proof run_filter_fault upd env rq this st t0 as H.
  rewrite Hf in H. by rewrite H.
Qed.

(** X10.  With an emitter that is not a function, the TypeError of
    calling it is logged and the transport is never called; with a url
    handler whose [get] is not a function (or no url handler), the
    "VAST-resolving" notification has gone out when the TypeError is
    logged.  In both cases the promise stays pending. *)
Theorem fetch_with_uncallable_collaborator (u timeout : value) :
  forEach_filter env (URLTemplateFilters this) (url rq) = Normal u →
  get (fetchingOptions this) "timeout" = Normal timeout →
  (typeof (emitter rq) ≠ "function" →
   run upd env rq this st t0 = (Normal tt, Store st t0 [Logged TypeError]))
  ∧ (∀ e, emitter rq = VFun e →
       emitter_body env e "VAST-resolving" (resolving_payload rq u timeout) = Normal tt →
       typeof (get_opt (urlHandler this) "get") ≠ "function" →
       run upd env rq this st t0
       = (Normal tt,
          Store st t0 [Emitted "VAST-resolving" (resolving_payload rq u timeout);
                       Logged TypeError])).
Proof.
  intros Hf Ho. split.
  - intros He. exact (run_emitter_not_callable upd env rq this st t0 u timeout Hf Ho He).
  - intros e He Hr Hg.
    exact (run_get_not_callable upd env rq this st t0 u timeout e Hf Ho He Hr Hg).
Qed.

(** X11.  A transport whose promise is rejected (or whose [get]
    throws) does not reject the promise of [fetchVAST]: the error is
    logged, "VAST-resolved" is not emitted, the estimator is untouched
    and the promise stays pending.  The same, with a TypeError, when
    the transport fulfils with null or undefined. *)
Theorem transport_failure_is_only_logged (u timeout : value) (e g : nat) :
  reaches_request env rq this u timeout e g →
  let tr := [Emitted "VAST-resolving" (resolving_payload rq u timeout);
             Requested u (fetchingOptions this)] in
  (∀ x, get_body env g u (fetchingOptions this) = Throw x →
        run upd env rq this st t0 = (Normal tt, Store st t0 (tr ++ [Logged x])))
  ∧ (∀ data t, get_body env g u (fetchingOptions this) = Normal (data, t) →
        nullish data = true →
        run upd env rq this st t0 = (Normal tt, Store st t (tr ++ [Logged TypeError])))
  ∧ (∀ x, promise_of (tr ++ [Logged x]) = Pending).
Proof.
  intros H tr. rewrite (run_reaches_request upd env rq this st t0 _ _ _ _ H).
  split; [|split].
  - by intros x ->.
  - intros data t -> Hn. simpl. by rewrite Hn.
  - done.
Qed.

(** X12.  A throw of the notification callback is logged and ends the
    run with the promise pending: thrown from "VAST-resolving", before
    the transport is called, so no request is made; thrown from
    "VAST-resolved", before the estimator is updated, so its state is
    untouched.  A throw of the estimator update is logged in the same
    way, and the estimator keeps the state the update left. *)
Theorem collaborator_throw_is_only_logged (u timeout : value) (e : nat) (x : value) :
  forEach_filter env (URLTemplateFilters this) (url rq) = Normal u →
  get (fetchingOptions this) "timeout" = Normal timeout →
  emitter rq = VFun e →
  let resolving := Emitted "VAST-resolving" (resolving_payload rq u timeout) in
  (emitter_body env e "VAST-resolving" (resolving_payload rq u timeout) = Throw x →
   run upd env rq this st t0 = (Normal tt, Store st t0 [resolving; Logged x]))
  ∧ (∀ g data t,
       reaches_resolved env rq this u timeout e g data t →
       let resolved := Emitted "VAST-resolved" (resolved_payload rq u data (t - t0)) in
       (emitter_body env e "VAST-resolved" (resolved_payload rq u data (t - t0)) = Throw x →
        run upd env rq this st t0
        = (Normal tt,
           Store st t [resolving; Requested u (fetchingOptions this); resolved; Logged x]))
       ∧ (emitter_body env e "VAST-resolved" (resolved_payload rq u data (t - t0))
          = Normal tt →
          (upd (byteLength_of data) (VNum (t - t0)) st).1 = Throw x →
          run upd env rq this st t0
          = (Normal tt,
             Store (upd (byteLength_of data) (VNum (t - t0)) st).2 t
               [resolving; Requested u (fetchingOptions this); resolved; Logged x]))).
Proof.
  intros Hf Ho He resolving. split.
  - intros Hr. exact (run_resolving_returns upd env rq this st t0 _ _ _ _ Hf Ho He Hr).
  - intros g data t H resolved.
    rewrite (run_reaches_resolved upd env rq this st t0 _ _ _ _ _ _ H). simpl.
    split.
    + by intros ->.
    + intros -> Hu. destruct (upd _ _ st) as [[[]| |] st']; simpl in *; by simplify_eq.
Qed.

End FetchEdges.

(** ** What a run never does *)

Lemma settlement_not_logged (data x : value) : settlement_of data ≠ Logged x.
Proof. unfold settlement_of. by case_match. Qed.

Lemma settlement_counts (data : value) :
  is_request (settlement_of data) = false
  ∧ is_log (settlement_of data) = false
  ∧ ∀ name, is_emission name (settlement_of data) = false.
Proof. unfold settlement_of. by case_match. Qed.

Section Never.

Context {S : Type}.
Variable upd : value → value → M S unit.
Variable env : Env.
Variable rq : FetchRequest.
Variable this : Fetcher.
Variable st : S.
Variable t0 : Z.

(** X13.  One fetch is one attempt: whatever the collaborators do, a
    run calls the transport at most once, emits each of the two
    notifications at most once, and logs at most once. *)
Theorem at_most_one_of_each :
  let tr := trace (run upd env rq this st t0).2 in
  (count_of is_request tr ≤ 1)%nat
  ∧ (count_of (is_emission "VAST-resolving") tr ≤ 1)%nat
  ∧ (count_of (is_emission "VAST-resolved") tr ≤ 1)%nat
  ∧ (count_of is_log tr ≤ 1)%nat.
Proof.
  intros tr.
  pose proof (run_trace_shape upd env rq this st t0) as Hshape. fold tr in Hshape.
  clearbody tr. unfold count_of.
  invert_trace Hshape; simpl; try (repeat split; lia);
    destruct (settlement_counts data) as (-> & -> & Hem);
    rewrite !Hem; simpl; repeat split; lia.
Qed.

(** X14.  Whatever the collaborators do, a run that logged an error has
    not settled the promise; and a run that settled the promise has
    emitted "VAST-resolving", called the transport, emitted
    "VAST-resolved" and settled, in this order and nothing else. *)
Theorem logged_or_settled :
  let tr := trace (run upd env rq this st t0).2 in
  (∀ x, Logged x ∈ tr → promise_of tr = Pending)
  ∧ (promise_of tr ≠ Pending →
     ∃ p1 u o p2 s,
       tr = [Emitted "VAST-resolving" p1; Requested u o;
             Emitted "VAST-resolved" p2; s]
       ∧ is_settlement s = true).
Proof.
  intros tr.
  pose proof (run_trace_shape upd env rq this st t0) as Hshape. fold tr in Hshape.
  clearbody tr. split.
  - intros x Hx. invert_trace Hshape; try done.
    exfalso. rewrite !elem_of_cons, elem_of_nil in Hx.
    destruct Hx as [?|[?|[?|[Hx|[]]]]]; try done.
    by eapply settlement_not_logged.
  - intros Hp. invert_trace Hshape; try done.
    do 5 eexists. split; [reflexivity|]. apply settlement_is_settlement.
Qed.

(** The estimator is only reached past the second notification. *)
Lemma run_estimator_untouched :
  count_of (is_emission "VAST-resolved") (trace (run upd env rq this st t0).2) = 0%nat →
  estimator (run upd env rq this st t0).2 = st.
Proof.
  destruct rq as [u0 mw em wd pu wa].
  unfold_fetch. simpl.
  run_cases; simpl; intros Hcount; try reflexivity;
    unfold count_of in Hcount; simpl in Hcount; discriminate Hcount.
Qed.

(** X15.  The estimator update is called exactly once the callback has
    returned from "VAST-resolved": a run that has not emitted
    "VAST-resolved" leaves the estimator's state as it was, whatever
    the collaborators do; and when the callback returns from
    "VAST-resolved", the state is the one that
    [updateEstimatedBitrate(data?.details?.byteLength, deltaTime)]
    leaves, whether or not the result reports an error or a byte
    length. *)
Theorem estimator_updated_after_resolved :
  (count_of (is_emission "VAST-resolved") (trace (run upd env rq this st t0).2) = 0%nat →
   estimator (run upd env rq this st t0).2 = st)
  ∧ (∀ u timeout e g data t,
       reaches_resolved env rq this u timeout e g data t →
       emitter_body env e "VAST-resolved" (resolved_payload rq u data (t - t0))
       = Normal tt →
       estimator (run upd env rq this st t0).2
       = (upd (byteLength_of data) (VNum (t - t0)) st).2).
Proof.
  split; [apply run_estimator_untouched|].
  intros u timeout e g data t H He.
  rewrite (run_reaches_resolved upd env rq this st t0 _ _ _ _ _ _ H). simpl.
  rewrite He. by destruct (upd _ _ st) as [[[]| |] st'].
Qed.


Lemma get_opt_primitive (data : value) (k : string) :
  (∀ d, data ≠ VObj d) → get_opt data k = VUndefined.
Proof. intros H. destruct data; try done. by destruct (H o). Qed.

(** X17.  A transport that fulfils with something that is not an object
    (the bare document as a string, say, instead of a result with an
    [xml] property) is not an error: every property read of it is
    undefined, so in a run without faults "VAST-resolved" reports error
    null and statusCode null, the estimator update is called with an
    undefined byte length, and the promise is fulfilled with
    undefined. *)
Theorem non_object_result_resolves_with_undefined u timeout e g data t :
  reaches_request env rq this u timeout e g →
  get_body env g u (fetchingOptions this) = Normal (data, t) →
  nullish data = false →
  (∀ d, data ≠ VObj d) →
  emitter_body env e "VAST-resolved" (resolved_payload rq u data (t - t0)) = Normal tt →
  (upd VUndefined (VNum (t - t0)) st).1 = Normal tt →
  let tr := trace (run upd env rq this st t0).2 in
  promise_of tr = Fulfilled VUndefined
  ∧ estimator (run upd env rq this st t0).2 = (upd VUndefined (VNum (t - t0)) st).2
  ∧ ∃ p, tr !! 2%nat = Some (Emitted "VAST-resolved" (VObj p))
      ∧ p !! "error" = Some VNull
      ∧ p !! "statusCode" = Some VNull.
Proof.
  intros H Hg Hn Hprim He Hu tr. subst tr.
  rewrite (run_reaches_request upd env rq this st t0 _ _ _ _ H), Hg. simpl.
  rewrite Hn, He.
  assert (Hbl : byteLength_of data = VUndefined).
  { unfold byteLength_of. by rewrite (get_opt_primitive data "details" Hprim). }
  rewrite Hbl. destruct (upd VUndefined _ st) as [[[]| |] st']; simpl in *; try done.
  unfold settlement_of, resolved_payload, named_fields.
  rewrite !(get_opt_primitive data _ Hprim). simpl.
  split; [reflexivity|]. split; [reflexivity|].
  eexists. split; [reflexivity|]. by rewrite !spread_lookup.
Qed.

End Never.

(** ** The estimator update *)

Section EstimatorCall.

Context {S : Type}.
Variable upd : value → value → M S unit.
Variable env : Env.
Variable rq : FetchRequest.
Variable this : Fetcher.
Variable st : S.
Variable t0 : Z.



End EstimatorCall.

(** * The further properties on the concrete worlds *)

Import Faults.

Ltac solve_request := constructor; reflexivity.

Lemma setOptions_urlHandler_precedence_witness :
  let lower : obj := {[ "urlhandler" := handler 21 ]} in
  let both : obj := {[ "urlHandler" := handler 23; "urlhandler" := handler 21 ]} in
  truthy (get_opt (VObj lower) "urlHandler") = false
  ∧ truthy (get_opt (VObj lower) "urlhandler") = true
  ∧ urlHandler (setOptions (handler 20) DEFAULT_TIMEOUT (VObj lower) constructor).2
    = handler 21
  ∧ truthy (get_opt (VObj both) "urlHandler") = true
  ∧ urlHandler (setOptions (handler 20) DEFAULT_TIMEOUT (VObj both) constructor).2
    = handler 23.
Proof.
  intros lower both.
  destruct (setOptions_urlHandler_precedence (handler 20) DEFAULT_TIMEOUT lower constructor)
    as (_ & Hlower & _).
  destruct (setOptions_urlHandler_precedence (handler 20) DEFAULT_TIMEOUT both constructor)
    as (Hboth & _ & _).
  split; [reflexivity|]. split; [reflexivity|].
  split; [exact (Hlower eq_refl eq_refl)|].
  split; [reflexivity|exact (Hboth eq_refl)].
Defined.

Lemma setOptions_replaces_configuration_witness :
  let first := VObj {[ "timeout" := VNum 5; "retries" := VNum 3 ]} in
  let second := VObj {[ "withCredentials" := VBool true ]} in
  let configure := setOptions (handler 20) DEFAULT_TIMEOUT in
  second ≠ VNull
  ∧ configure second (configure first constructor).2 = configure second constructor
  ∧ (configure first constructor).1 = Normal tt
  ∧ ∃ opts, fetchingOptions (configure first constructor).2 = VObj opts
      ∧ opts !! "retries" = None.
Proof.
  intros first second configure.
  assert (Hnn : second ≠ VNull) by discriminate.
  destruct (setOptions_replaces_configuration (handler 20) DEFAULT_TIMEOUT
              first second constructor) as (Hlast & _ & Hkeys).
  split; [exact Hnn|]. split; [exact (Hlast Hnn)|]. split; [reflexivity|].
  destruct (Hkeys eq_refl) as (opts & Hopts & Hdom).
  exists opts. split; [exact Hopts|].
  destruct (opts !! "retries") eqn:Hr; [|reflexivity].
  destruct (proj1 (Hdom "retries") (ex_intro _ _ Hr)) as [H|H]; discriminate H.
Defined.

Lemma pipeline_holds_functions_only_witness :
  VFun 1 ∈ URLTemplateFilters (run_ops [Add (VNum 3); Add (VFun 1)])
  ∧ typeof (VFun 1) = "function".
Proof.
  assert (H : VFun 1 ∈ URLTemplateFilters (run_ops [Add (VNum 3); Add (VFun 1)]))
    by (apply list_elem_of_In; simpl; by left).
  split; [exact H|].
  exact (proj1 (pipeline_holds_functions_only _ _ H)).
Defined.

Lemma pipeline_composes_and_stops_at_a_throw_witness :
  forEach_filter env [VFun 1] (VStr "http://a/vast.xml")
  = Normal (VStr "http://a/vast.xml?cb=1")
  ∧ forEach_filter env ([VFun 1] ++ [VFun 2]) (VStr "http://a/vast.xml")
    = Normal (VStr "http://a/vast.xml?cb=1&gdpr=0")
  ∧ forEach_filter env [VFun 3] (VStr "http://a/vast.xml") = Throw filterFault
  ∧ forEach_filter env ([VFun 3] ++ [VFun 1; VFun 2]) (VStr "http://a/vast.xml")
    = Throw filterFault.
Proof.
  split; [reflexivity|]. split.
  - exact (proj1 (pipeline_composes_and_stops_at_a_throw env [VFun 1] [VFun 2]
                    (VStr "http://a/vast.xml")) _ eq_refl).
  - split; [reflexivity|].
    exact (proj2 (pipeline_composes_and_stops_at_a_throw env [VFun 3] [VFun 1; VFun 2]
                    (VStr "http://a/vast.xml")) _ eq_refl).
Defined.

Lemma fetch_without_setOptions_witness :
  forEach_filter env (URLTemplateFilters (run_ops [Add (VFun 1)])) (url (request 10))
  = Normal (VStr "http://a/vast.xml?cb=1")
  ∧ run skipping env (request 10) (run_ops [Add (VFun 1)]) [] 1000
    = (Normal tt, Store [] 1000 [Logged TypeError]).
Proof.
  split; [reflexivity|].
  exact (proj1 (fetch_without_setOptions skipping env (request 10) [] 1000
                  [Add (VFun 1)] _ eq_refl)).
Defined.

Lemma filter_throw_escapes_witness :
  forEach_filter env (URLTemplateFilters (fetcher 20 [VFun 3])) (url (request 10))
  = Throw filterFault
  ∧ run skipping env (request 10) (fetcher 20 [VFun 3]) [] 1000
    = (Throw filterFault, Store [] 1000 []).
Proof.
  split; [reflexivity|].
  exact (proj1 (filter_throw_escapes skipping env (request 10) (fetcher 20 [VFun 3])
                  [] 1000 _ eq_refl)).
Defined.

Lemma fetch_with_uncallable_collaborator_witness :
  typeof (emitter request_without_emitter) ≠ "function"
  ∧ run skipping env request_without_emitter (fetcher 20 []) [] 1000
    = (Normal tt, Store [] 1000 [Logged TypeError])
  ∧ typeof (get_opt (urlHandler fetcher_without_get) "get") ≠ "function"
  ∧ trace (run skipping env (request 10) fetcher_without_get [] 1000).2 !! 1%nat
    = Some (Logged TypeError).
Proof.
  assert (He : typeof (emitter request_without_emitter) ≠ "function") by discriminate.
  assert (Hg : typeof (get_opt (urlHandler fetcher_without_get) "get") ≠ "function")
    by discriminate.
  split; [exact He|]. split.
  - exact (proj1 (fetch_with_uncallable_collaborator skipping env request_without_emitter
                    (fetcher 20 []) [] 1000 (VStr "http://a/vast.xml") (VNum 120000)
                    eq_refl eq_refl) He).
  - split; [exact Hg|].
    rewrite (proj2 (fetch_with_uncallable_collaborator skipping env (request 10)
                      fetcher_without_get [] 1000 (VStr "http://a/vast.xml")
                      (VNum 120000) eq_refl eq_refl) 10%nat eq_refl eq_refl Hg).
    reflexivity.
Defined.

Lemma transport_failure_is_only_logged_witness :
  reaches_request env (request 10) (fetcher 25 [])
    (VStr "http://a/vast.xml") (VNum 120000) 10 25
  ∧ last (trace (run skipping env (request 10) (fetcher 25 []) [] 1000).2)
    = Some (Logged NetworkTimeoutError)
  ∧ reaches_request env_null (request 10) (fetcher 20 [])
      (VStr "http://a/vast.xml") (VNum 120000) 10 20
  ∧ last (trace (run skipping env_null (request 10) (fetcher 20 []) [] 1000).2)
    = Some (Logged TypeError).
Proof.
  assert (H : reaches_request env (request 10) (fetcher 25 [])
                (VStr "http://a/vast.xml") (VNum 120000) 10 25) by solve_request.
  assert (H' : reaches_request env_null (request 10) (fetcher 20 [])
                 (VStr "http://a/vast.xml") (VNum 120000) 10 20) by solve_request.
  split; [exact H|]. split.
  - rewrite (proj1 (transport_failure_is_only_logged skipping env (request 10)
                      (fetcher 25 []) [] 1000 _ _ _ _ H) _ eq_refl).
    reflexivity.
  - split; [exact H'|].
    rewrite (proj1 (proj2 (transport_failure_is_only_logged skipping env_null (request 10)
                             (fetcher 20 []) [] 1000 _ _ _ _ H')) _ _ eq_refl eq_refl).
    reflexivity.
Defined.

Lemma collaborator_throw_is_only_logged_witness :
  emitter_body env 12 "VAST-resolving"
    (resolving_payload (request 12) (VStr "http://a/vast.xml") (VNum 120000))
  = Throw listenerFault
  ∧ length (trace (run skipping env (request 12) (fetcher 20 []) [] 1000).2) = 2%nat
  ∧ reaches_resolved env (request 11) (fetcher 20 [])
      (VStr "http://a/vast.xml") (VNum 120000) 11 20 sized_result 1050
  ∧ estimator (run skipping env (request 11) (fetcher 20 []) [] 1000).2 = []
  ∧ reaches_resolved env (request 10) (fetcher 20 [])
      (VStr "http://a/vast.xml") (VNum 120000) 10 20 sized_result 1050
  ∧ last (trace (run failing_update env (request 10) (fetcher 20 []) [] 1000).2)
    = Some (Logged listenerFault).
Proof.
  assert (H11 : reaches_resolved env (request 11) (fetcher 20 [])
      (VStr "http://a/vast.xml") (VNum 120000) 11 20 sized_result 1050)
    by solve_reaches.
  assert (H10 : reaches_resolved env (request 10) (fetcher 20 [])
      (VStr "http://a/vast.xml") (VNum 120000) 10 20 sized_result 1050)
    by solve_reaches.
  split; [reflexivity|]. split.
  - rewrite (proj1 (collaborator_throw_is_only_logged skipping env (request 12)
                      (fetcher 20 []) [] 1000 (VStr "http://a/vast.xml") (VNum 120000)
                      12%nat listenerFault eq_refl eq_refl eq_refl) eq_refl).
    reflexivity.
  - split; [exact H11|]. split.
    + rewrite (proj1 (proj2 (collaborator_throw_is_only_logged skipping env (request 11)
                        (fetcher 20 []) [] 1000 (VStr "http://a/vast.xml") (VNum 120000)
                        11%nat listenerFault eq_refl eq_refl eq_refl) _ _ _ H11) eq_refl).
      reflexivity.
    + split; [exact H10|].
      rewrite (proj2 (proj2 (collaborator_throw_is_only_logged failing_update env
                        (request 10) (fetcher 20 []) [] 1000 (VStr "http://a/vast.xml")
                        (VNum 120000) 10%nat listenerFault eq_refl eq_refl eq_refl)
                        _ _ _ H10) eq_refl eq_refl).
      reflexivity.
Defined.

Lemma logged_or_settled_witness :
  Logged listenerFault ∈ trace (run skipping env (request 11) (fetcher 20 []) [] 1000).2
  ∧ promise_of (trace (run skipping env (request 11) (fetcher 20 []) [] 1000).2) = Pending
  ∧ promise_of (trace (run skipping env (request 10) (fetcher 20 []) [] 1000).2) ≠ Pending
  ∧ length (trace (run skipping env (request 10) (fetcher 20 []) [] 1000).2) = 4%nat.
Proof.
  assert (Hin : Logged listenerFault
                ∈ trace (run skipping env (request 11) (fetcher 20 []) [] 1000).2)
    by (apply list_elem_of_lookup; exists 3%nat; reflexivity).
  assert (Hset : promise_of (trace (run skipping env (request 10) (fetcher 20 []) [] 1000).2)
                 ≠ Pending) by discriminate.
  split; [exact Hin|]. split.
  - exact (proj1 (logged_or_settled skipping env (request 11) (fetcher 20 []) [] 1000)
             _ Hin).
  - split; [exact Hset|].
    destruct (proj2 (logged_or_settled skipping env (request 10) (fetcher 20 []) [] 1000)
                Hset) as (p1 & u & o & p2 & s & Htr & _).
    by rewrite Htr.
Defined.

Lemma estimator_updated_after_resolved_witness :
  count_of (is_emission "VAST-resolved")
    (trace (run skipping env (request 10) (fetcher 25 []) [] 1000).2) = 0%nat
  ∧ estimator (run skipping env (request 10) (fetcher 25 []) [] 1000).2 = []
  ∧ reaches_resolved env_failure (request 10) (fetcher 20 [])
      (VStr "http://a/vast.xml") (VNum 120000) 10 20 sized_failure 1050
  ∧ truthy (get_opt sized_failure "error") = true
  ∧ estimator (run skipping env_failure (request 10) (fetcher 20 []) [] 1000).2
    = [(VNum 120, VNum 50)].
Proof.
  assert (H : reaches_resolved env_failure (request 10) (fetcher 20 [])
      (VStr "http://a/vast.xml") (VNum 120000) 10 20 sized_failure 1050)
    by solve_reaches.
  destruct (estimator_updated_after_resolved skipping env (request 10) (fetcher 25 [])
              [] 1000) as [Hnone _].
  destruct (estimator_updated_after_resolved skipping env_failure (request 10)
              (fetcher 20 []) [] 1000) as [_ Hcalled].
  split; [reflexivity|]. split; [exact (Hnone eq_refl)|].
  split; [exact H|]. split; [reflexivity|].
  exact (Hcalled _ _ _ _ _ _ H eq_refl).
Defined.


Lemma non_object_result_resolves_with_undefined_witness :
  reaches_request env_bare (request 10) (fetcher 20 [])
    (VStr "http://a/vast.xml") (VNum 120000) 10 20
  ∧ nullish (VStr "<VAST/>") = false
  ∧ promise_of (trace (run skipping env_bare (request 10) (fetcher 20 []) [] 1000).2)
    = Fulfilled VUndefined.
Proof.
  assert (H : reaches_request env_bare (request 10) (fetcher 20 [])
    (VStr "http://a/vast.xml") (VNum 120000) 10 20) by solve_request.
  assert (Hprim : ∀ d, VStr "<VAST/>" ≠ VObj d) by discriminate.
  split; [exact H|]. split; [reflexivity|].
  exact (proj1 (non_object_result_resolves_with_undefined skipping env_bare (request 10)
                  (fetcher 20 []) [] 1000 _ _ _ _ (VStr "<VAST/>") 1050
                  H eq_refl eq_refl Hprim eq_refl eq_refl)).
Defined.


